(** * mem0 client: parameter reconciliation, payload building, transport

    A shallow embedding of [mem0/client/main.py]: the synchronous
    [MemoryClient], the asynchronous [AsyncMemoryClient] and the
    [api_error_handler] decorator that wraps their operations.

    Python objects that the code mutates (the [kwargs] dictionaries) live in
    a store indexed by references, so that aliasing between the caller's
    mapping and the callee's local name is visible.  HTTP traffic is an
    explicit log of the requests issued, answered by a transport oracle. *)

From stdpp Require Import gmap strings list fin_maps.

Set Warnings "-register-all".
Local Open Scope string_scope.
Local Open Scope Z_scope.

(** ** Values *)

(** Python / JSON data carried by option mappings and response bodies.
    Nested objects are forwarded verbatim by the client; they keep their
    entries as an association list. *)
Inductive value :=
  | VNone
  | VBool (b : bool)
  | VInt (z : Z)
  | VStr (s : string)
  | VList (l : list value)
  | VDict (kvs : list (string * value)).

(** [v is not None] *)
Definition is_not_none (v : value) : bool :=
  match v with VNone => false | _ => true end.

(** A [Dict[str, Any]].  Python compares dictionaries regardless of the
    order of insertion, which is the equality of [gmap]. *)
Abbreviation dict := (gmap string value).

(** Truth value of an [Optional[str]]: [None] and the empty string are
    false, every other string is true. *)
Definition truthy (o : option string) : bool :=
  match o with
  | None => false
  | Some s => negb (String.eqb s "")
  end.

(** The Python object held by an [Optional[str]] attribute. *)
Definition str_value (o : option string) : value :=
  match o with
  | None => VNone
  | Some s => VStr s
  end.

(** [{k: v for k, v in d.items() if v is not None}] *)
Definition drop_none (d : dict) : dict :=
  filter (λ kv, is_not_none kv.2 = true) d.

(** ** HTTP exchange *)

Inductive Method := GET | POST | PUT | DELETE | PATCH.

(** One call on the [httpx] client: [params=] and [json=] are recorded as
    they were passed ([None] when the keyword was not given). *)
Record Request := {
  req_method : Method;
  req_url : string;
  req_params : option dict;
  req_json : option dict }.

(** What the client reads of a response: the status, the body text and the
    decoded body ([None] when the text is not JSON). *)
Record Response := {
  status_code : Z;
  text : string;
  json_value : option value }.

Inductive Outcome :=
  | Responded (r : Response)
  | Failed (msg : string).

(** The remote side: the answer to a request may depend on the requests
    issued before it (in chronological order). *)
Definition Transport := list Request → Request → Outcome.

(** ** Exceptions and the client monad *)

Inductive exn :=
  | ValueError (msg : string)
  | APIError (msg : string)
  | HTTPStatusError (response : Response)
  | RequestError (msg : string)
  | UnboundLocalError (name : string)
  | KeyError (key : string)
  | TypeError (msg : string)
  | JSONDecodeError
  | AttributeError (name : string)
  | NotImplementedError (msg : string).

Inductive Result (A : Type) :=
  | Ok (a : A)
  | Raise (e : exn).
Arguments Ok {A} a.
Arguments Raise {A} e.

(** References to dictionary objects. *)
Abbreviation ref := nat.

Record World := {
  heap : gmap ref dict;
  requests : list Request;
  events : list string }.

Definition M (A : Type) : Type := World → Result A * World.

Definition ret {A} (a : A) : M A := λ w, (Ok a, w).

Definition raise {A} (e : exn) : M A := λ w, (Raise e, w).

Definition bind {A B} (c : M A) (k : A → M B) : M B :=
  λ w, match c w with
       | (Ok a, w') => k a w'
       | (Raise e, w') => (Raise e, w')
       end.

Declare Scope py_scope.
Delimit Scope py_scope with py.
Notation "x <- c ;; k" := (bind c (λ x, k))
  (at level 100, c at next level, right associativity) : py_scope.
Notation "c ;; k" := (bind c (λ _, k))
  (at level 100, right associativity) : py_scope.
Local Open Scope py_scope.

(** ** Dictionary objects *)

Definition set_heap (h : gmap ref dict) (w : World) : World :=
  {| heap := h; requests := requests w; events := events w |}.

(** A dictionary display or comprehension: a new object. *)
Definition new_dict (d : dict) : M ref :=
  λ w, let l := fresh (dom (heap w)) in (Ok l, set_heap (<[l := d]> (heap w)) w).

(** Reading through a reference; a reference that denotes no dictionary
    is a type error. *)
Definition read_dict (l : ref) : M dict :=
  λ w, match heap w !! l with
       | Some d => (Ok d, w)
       | None => (Raise (TypeError "not a mapping"), w)
       end.

Definition write_dict (l : ref) (d : dict) : M unit :=
  λ w, (Ok tt, set_heap (<[l := d]> (heap w)) w).

(** [d[k] = v] *)
Definition dict_setitem (l : ref) (k : string) (v : value) : M unit :=
  d <- read_dict l ;; write_dict l (<[k := v]> d).

(** [k in d] *)
Definition dict_contains (l : ref) (k : string) : M bool :=
  d <- read_dict l ;; ret (bool_decide (is_Some (d !! k))).

(** [d.pop(k)] *)
Definition dict_pop (l : ref) (k : string) : M value :=
  d <- read_dict l ;;
  match d !! k with
  | Some v => write_dict l (delete k d) ;; ret v
  | None => raise (KeyError k)
  end.

(** [del d[k]] *)
Definition dict_delitem (l : ref) (k : string) : M unit :=
  d <- read_dict l ;;
  match d !! k with
  | Some _ => write_dict l (delete k d)
  | None => raise (KeyError k)
  end.

(** ** The client session *)

Record MemoryClient := {
  api_key : string;
  host : string;
  organization : option string;
  project : option string;
  org_id : option string;
  project_id : option string;
  user_id : string }.

Definition both_pairs_message : string :=
  "Please use either org_id/project_id or org_name/project_name, not both. Note that org_name/project_name are deprecated.".

(** [MemoryClient._prepare_params] *)
Definition _prepare_params (self : MemoryClient) (kwargs : option ref) : M ref :=
  kwargs <- match kwargs with
            | None => new_dict ∅
            | Some l => ret l
            end ;;
  let has_new := truthy (org_id self) || truthy (project_id self) in
  let has_old := truthy (organization self) || truthy (project self) in
  if has_new && has_old then raise (ValueError both_pairs_message)
  else
    (if truthy (org_id self) && truthy (project_id self) then
       dict_setitem kwargs "org_id" (str_value (org_id self)) ;;
       dict_setitem kwargs "project_id" (str_value (project_id self))
     else if truthy (org_id self) || truthy (project_id self) then
       raise (ValueError "Please provide both org_id and project_id")
     else ret tt) ;;
    (if truthy (organization self) && truthy (project self) then
       dict_setitem kwargs "org_name" (str_value (organization self)) ;;
       dict_setitem kwargs "project_name" (str_value (project self))
     else if truthy (organization self) || truthy (project self) then
       raise (ValueError "Please provide both org_name and project_name")
     else ret tt) ;;
    d <- read_dict kwargs ;;
    new_dict (drop_none d).

(** [{"role": "user", "content": s}] *)
Definition user_message (s : string) : value :=
  VDict [("role", VStr "user"); ("content", VStr s)].

(** [d.update(other)] *)
Definition dict_update (l : ref) (other : dict) : M unit :=
  d <- read_dict l ;; write_dict l (other ∪ d).

(** [MemoryClient._prepare_payload] *)
Definition _prepare_payload (messages : value) (kwargs : ref) : M ref :=
  payload <- new_dict ∅ ;;
  match messages with
  | VStr s => dict_setitem payload "messages" (VList [user_message s])
  | VList _ => dict_setitem payload "messages" messages
  | _ => ret tt
  end ;;
  kw <- read_dict kwargs ;;
  dict_update payload (drop_none kw) ;;
  ret payload.

(** ** Transport, telemetry and the error boundary *)

Definition log_request (r : Request) (w : World) : World :=
  {| heap := heap w; requests := requests w ++ [r]; events := events w |}.

(** One request on the [httpx] client. A transport failure is raised as
    [httpx.RequestError]; the request has been issued in either case. *)
Definition send (srv : Transport) (r : Request) : M Response :=
  λ w, match srv (requests w) r with
       | Responded resp => (Ok resp, log_request r w)
       | Failed msg => (Raise (RequestError msg), log_request r w)
       end.

(** [httpx]: a response is a success when its status is 2xx. *)
Definition is_success (r : Response) : bool :=
  (200 <=? status_code r) && (status_code r <=? 299).

(** [response.raise_for_status()] *)
Definition raise_for_status (r : Response) : M unit :=
  if is_success r then ret tt else raise (HTTPStatusError r).

(** [response.json()] *)
Definition response_json (r : Response) : M value :=
  match json_value r with
  | Some v => ret v
  | None => raise JSONDecodeError
  end.

(** [capture_client_event]: the telemetry sink records the event name. *)
Definition capture_client_event (name : string) : M unit :=
  λ w, (Ok tt, {| heap := heap w; requests := requests w;
                  events := events w ++ [name] |}).

(** The two [except] clauses of the wrapper of [api_error_handler]: the
    exception that leaves the [try] statement when [e] was raised in it. *)
Definition except_clauses (e : exn) : exn :=
  match e with
  | HTTPStatusError response =>
      APIError ("API request failed: " +:+ text response)
  | RequestError msg => APIError ("Request failed: " +:+ msg)
  | _ => e
  end.

(** [api_error_handler]: the wrapper returns what the call of [func]
    returns, inside [try]. The two [logger.error] lines are not part of
    the model. *)
Definition api_error_handler {A} (func : M A) : M A :=
  λ w, match func w with
       | (Ok a, w') => (Ok a, w')
       | (Raise e, w') => (Raise (except_clauses e), w')
       end.

(** ** Subscripts and iteration on decoded JSON *)

Fixpoint assoc (k : string) (kvs : list (string * value)) : option value :=
  match kvs with
  | [] => None
  | (k', v) :: rest => if String.eqb k k' then Some v else assoc k rest
  end.

(** [v[k]] for a string key [k] *)
Definition subscript (v : value) (k : string) : M value :=
  match v with
  | VDict kvs =>
      match assoc k kvs with
      | Some x => ret x
      | None => raise (KeyError k)
      end
  | _ => raise (TypeError "indices must be integers")
  end.

Fixpoint chars (s : string) : list value :=
  match s with
  | EmptyString => []
  | String c rest => VStr (String c EmptyString) :: chars rest
  end.

(** The items a [for] loop visits. *)
Definition iterate (v : value) : M (list value) :=
  match v with
  | VList l => ret l
  | VDict kvs => ret (map (λ kv, VStr kv.1) kvs)
  | VStr s => ret (chars s)
  | _ => raise (TypeError "object is not iterable")
  end.

(** A value inside an f-string. [py_str] is Python's [str()] on the
    values that are not strings. *)
Definition format_value (py_str : value → string) (v : value) : string :=
  match v with
  | VStr s => s
  | _ => py_str v
  end.

(** ** The synchronous client *)

(** The [**kwargs] of a call are collected in a dictionary made for that
    call; [kw] is its content on entry. A local name is bound to a
    response ([Some]) or was never assigned ([None]). *)
Definition read_local (name : string) (x : option Response) : M Response :=
  match x with
  | Some r => ret r
  | None => raise (UnboundLocalError name)
  end.

(** [if "metadata" in kwargs: del kwargs["metadata"]] *)
Definition drop_metadata (kwargs : ref) : M unit :=
  has <- dict_contains kwargs "metadata" ;;
  if has then dict_delitem kwargs "metadata" else ret tt.

Module Sync.
Section Operations.
Context (srv : Transport) (py_str : value → string).

Definition add_body (self : MemoryClient) (messages : value) (kw : dict) : M value :=
  kwargs <- new_dict kw ;;
  kwargs <- _prepare_params self (Some kwargs) ;;
  payload <- _prepare_payload messages kwargs ;;
  body <- read_dict payload ;;
  response <- send srv {| req_method := POST; req_url := "/v1/memories/";
                          req_params := None; req_json := Some body |} ;;
  raise_for_status response ;;
  drop_metadata kwargs ;;
  capture_client_event "client.add" ;;
  response_json response.

Definition add self messages kw : M value :=
  api_error_handler (add_body self messages kw).

Definition get_body (self : MemoryClient) (memory_id : string) : M value :=
  params <- _prepare_params self None ;;
  ps <- read_dict params ;;
  response <- send srv {| req_method := GET;
                          req_url := "/v1/memories/" +:+ memory_id +:+ "/";
                          req_params := Some ps; req_json := None |} ;;
  raise_for_status response ;;
  capture_client_event "client.get" ;;
  response_json response.

Definition get self memory_id : M value :=
  api_error_handler (get_body self memory_id).

Definition get_all_body (self : MemoryClient) (version : string) (kw : dict) : M value :=
  kwargs <- new_dict kw ;;
  params <- _prepare_params self (Some kwargs) ;;
  response <-
    (if String.eqb version "v1" then
       ps <- read_dict params ;;
       r <- send srv {| req_method := GET;
                        req_url := "/" +:+ version +:+ "/memories/";
                        req_params := Some ps; req_json := None |} ;;
       ret (Some r)
     else if String.eqb version "v2" then
       has_page <- dict_contains params "page" ;;
       has_size <- (if has_page then dict_contains params "page_size"
                    else ret false) ;;
       if has_page && has_size then
         page <- dict_pop params "page" ;;
         page_size <- dict_pop params "page_size" ;;
         query_params <- new_dict (<["page_size" := page_size]>
                                     (<["page" := page]> ∅)) ;;
         body <- read_dict params ;;
         qs <- read_dict query_params ;;
         r <- send srv {| req_method := POST;
                          req_url := "/" +:+ version +:+ "/memories/";
                          req_params := Some qs; req_json := Some body |} ;;
         ret (Some r)
       else
         body <- read_dict params ;;
         r <- send srv {| req_method := POST;
                          req_url := "/" +:+ version +:+ "/memories/";
                          req_params := None; req_json := Some body |} ;;
         ret (Some r)
     else ret None) ;;
  response <- read_local "response" response ;;
  raise_for_status response ;;
  drop_metadata kwargs ;;
  capture_client_event "client.get_all" ;;
  response_json response.

Definition get_all self version kw : M value :=
  api_error_handler (get_all_body self version kw).

Definition users_body (self : MemoryClient) : M value :=
  params <- _prepare_params self None ;;
  ps <- read_dict params ;;
  response <- send srv {| req_method := GET; req_url := "/v1/entities/";
                          req_params := Some ps; req_json := None |} ;;
  raise_for_status response ;;
  capture_client_event "client.users" ;;
  response_json response.

Definition users self : M value :=
  api_error_handler (users_body self).

(** The request of one turn of the loop of [delete_users]. *)
Definition entity_request (ty id : value) (ps : dict) : Request :=
  {| req_method := DELETE;
     req_url := "/v1/entities/" +:+ format_value py_str ty +:+ "/"
                +:+ format_value py_str id +:+ "/";
     req_params := Some ps; req_json := None |}.

Fixpoint delete_each (params : ref) (entities : list value) : M unit :=
  match entities with
  | [] => ret tt
  | entity :: rest =>
      ty <- subscript entity "type" ;;
      id <- subscript entity "id" ;;
      ps <- read_dict params ;;
      response <- send srv (entity_request ty id ps) ;;
      raise_for_status response ;;
      delete_each params rest
  end.

Definition delete_users_body (self : MemoryClient) : M value :=
  params <- _prepare_params self None ;;
  entities <- users self ;;
  results <- subscript entities "results" ;;
  items <- iterate results ;;
  delete_each params items ;;
  capture_client_event "client.delete_users" ;;
  ret (VDict [("message", VStr "All users, agents, and sessions deleted.")]).

Definition delete_users self : M value :=
  api_error_handler (delete_users_body self).

End Operations.
End Sync.

(** ** The asynchronous client *)

(** Calling an [async def] function runs none of its body: the call
    returns a coroutine object, and the body runs when that object is
    awaited. *)
Definition Coroutine (A : Type) : Type := M A.

Definition async_def {A} (body : M A) : M (Coroutine A) := ret body.

Definition await {A} (call : M (Coroutine A)) : M A :=
  co <- call ;; co.

Record AsyncMemoryClient := { sync_client : MemoryClient }.

Module Async.
Section Operations.
Context (srv : Transport) (py_str : value → string).

Definition add_body (self : AsyncMemoryClient) (messages : value) (kw : dict) : M value :=
  kwargs <- new_dict kw ;;
  kwargs <- _prepare_params (sync_client self) (Some kwargs) ;;
  payload <- _prepare_payload messages kwargs ;;
  body <- read_dict payload ;;
  response <- send srv {| req_method := POST; req_url := "/v1/memories/";
                          req_params := None; req_json := Some body |} ;;
  raise_for_status response ;;
  drop_metadata kwargs ;;
  capture_client_event "async_client.add" ;;
  response_json response.

Definition add self messages kw : M (Coroutine value) :=
  api_error_handler (async_def (add_body self messages kw)).

Definition get_body (self : AsyncMemoryClient) (memory_id : string) : M value :=
  params <- _prepare_params (sync_client self) None ;;
  ps <- read_dict params ;;
  response <- send srv {| req_method := GET;
                          req_url := "/v1/memories/" +:+ memory_id +:+ "/";
                          req_params := Some ps; req_json := None |} ;;
  raise_for_status response ;;
  capture_client_event "async_client.get" ;;
  response_json response.

Definition get self memory_id : M (Coroutine value) :=
  api_error_handler (async_def (get_body self memory_id)).

Definition get_all_body (self : AsyncMemoryClient) (version : string) (kw : dict) : M value :=
  kwargs <- new_dict kw ;;
  params <- _prepare_params (sync_client self) (Some kwargs) ;;
  response <-
    (if String.eqb version "v1" then
       ps <- read_dict params ;;
       r <- send srv {| req_method := GET;
                        req_url := "/" +:+ version +:+ "/memories/";
                        req_params := Some ps; req_json := None |} ;;
       ret (Some r)
     else if String.eqb version "v2" then
       body <- read_dict params ;;
       r <- send srv {| req_method := POST;
                        req_url := "/" +:+ version +:+ "/memories/";
                        req_params := None; req_json := Some body |} ;;
       ret (Some r)
     else ret None) ;;
  response <- read_local "response" response ;;
  raise_for_status response ;;
  drop_metadata kwargs ;;
  capture_client_event "async_client.get_all" ;;
  response_json response.

Definition get_all self version kw : M (Coroutine value) :=
  api_error_handler (async_def (get_all_body self version kw)).

Definition users_body (self : AsyncMemoryClient) : M value :=
  params <- _prepare_params (sync_client self) None ;;
  ps <- read_dict params ;;
  response <- send srv {| req_method := GET; req_url := "/v1/entities/";
                          req_params := Some ps; req_json := None |} ;;
  raise_for_status response ;;
  capture_client_event "async_client.users" ;;
  response_json response.

Definition users self : M (Coroutine value) :=
  api_error_handler (async_def (users_body self)).

Fixpoint delete_each (params : ref) (entities : list value) : M unit :=
  match entities with
  | [] => ret tt
  | entity :: rest =>
      ty <- subscript entity "type" ;;
      id <- subscript entity "id" ;;
      ps <- read_dict params ;;
      response <- send srv (Sync.entity_request py_str ty id ps) ;;
      raise_for_status response ;;
      delete_each params rest
  end.

Definition delete_users_body (self : AsyncMemoryClient) : M value :=
  params <- _prepare_params (sync_client self) None ;;
  entities <- await (users self) ;;
  results <- subscript entities "results" ;;
  items <- iterate results ;;
  delete_each params items ;;
  capture_client_event "async_client.delete_users" ;;
  ret (VDict [("message", VStr "All users, agents, and sessions deleted.")]).

Definition delete_users self : M (Coroutine value) :=
  api_error_handler (async_def (delete_users_body self)).

End Operations.
End Async.

(** ** The remaining operations of the synchronous client *)

(** An [Optional[str]] attribute inside an f-string. *)
Definition format_attr (o : option string) : string :=
  match o with
  | Some s => s
  | None => "None"
  end.

(** [/api/v1/orgs/organizations/{org_id}/projects/{project_id}/] *)
Definition project_url (self : MemoryClient) : string :=
  "/api/v1/orgs/organizations/" +:+ format_attr (org_id self)
  +:+ "/projects/" +:+ format_attr (project_id self) +:+ "/".

(** In every operation below [kw] holds the keyword arguments that are
    not parameters of the method: Python rejects a call that gives a
    parameter twice before the method runs. *)
Module SyncRest.
Section Operations.
Context (srv : Transport) (py_str : value → string).

Definition search_body (self : MemoryClient) (query version : string) (kw : dict) : M value :=
  kwargs <- new_dict kw ;;
  payload <- new_dict {[ "query" := VStr query ]} ;;
  params <- _prepare_params self (Some kwargs) ;;
  ps <- read_dict params ;;
  dict_update payload ps ;;
  body <- read_dict payload ;;
  response <- send srv {| req_method := POST;
                          req_url := "/" +:+ version +:+ "/memories/search/";
                          req_params := None; req_json := Some body |} ;;
  raise_for_status response ;;
  drop_metadata kwargs ;;
  capture_client_event "client.search" ;;
  response_json response.

Definition search self query version kw : M value :=
  api_error_handler (search_body self query version kw).

Definition update_body (self : MemoryClient) (memory_id data : string) : M value :=
  capture_client_event "client.update" ;;
  params <- _prepare_params self None ;;
  ps <- read_dict params ;;
  response <- send srv {| req_method := PUT;
                          req_url := "/v1/memories/" +:+ memory_id +:+ "/";
                          req_params := Some ps;
                          req_json := Some {[ "text" := VStr data ]} |} ;;
  raise_for_status response ;;
  response_json response.

Definition update self memory_id data : M value :=
  api_error_handler (update_body self memory_id data).

Definition delete_body (self : MemoryClient) (memory_id : string) : M value :=
  params <- _prepare_params self None ;;
  ps <- read_dict params ;;
  response <- send srv {| req_method := DELETE;
                          req_url := "/v1/memories/" +:+ memory_id +:+ "/";
                          req_params := Some ps; req_json := None |} ;;
  raise_for_status response ;;
  capture_client_event "client.delete" ;;
  response_json response.

Definition delete_all_body (self : MemoryClient) (kw : dict) : M value :=
  kwargs <- new_dict kw ;;
  params <- _prepare_params self (Some kwargs) ;;
  ps <- read_dict params ;;
  response <- send srv {| req_method := DELETE; req_url := "/v1/memories/";
                          req_params := Some ps; req_json := None |} ;;
  raise_for_status response ;;
  capture_client_event "client.delete_all" ;;
  response_json response.

Definition delete_all self kw : M value :=
  api_error_handler (delete_all_body self kw).

Definition history_body (self : MemoryClient) (memory_id : string) : M value :=
  params <- _prepare_params self None ;;
  ps <- read_dict params ;;
  response <- send srv {| req_method := GET;
                          req_url := "/v1/memories/" +:+ memory_id +:+ "/history/";
                          req_params := Some ps; req_json := None |} ;;
  raise_for_status response ;;
  capture_client_event "client.history" ;;
  response_json response.

Definition history self memory_id : M value :=
  api_error_handler (history_body self memory_id).

Definition reset_body (self : MemoryClient) : M value :=
  Sync.delete_users srv py_str self ;;
  capture_client_event "client.reset" ;;
  ret (VDict [("message", VStr "Client reset successful. All users and memories deleted.")]).

Definition reset self : M value :=
  api_error_handler (reset_body self).

Definition batch_update_body (self : MemoryClient) (memories : value) : M value :=
  response <- send srv {| req_method := PUT; req_url := "/v1/batch/";
                          req_params := None;
                          req_json := Some {[ "memories" := memories ]} |} ;;
  raise_for_status response ;;
  capture_client_event "client.batch_update" ;;
  response_json response.

Definition batch_update self memories : M value :=
  api_error_handler (batch_update_body self memories).

Definition batch_delete_body (self : MemoryClient) (memories : value) : M value :=
  response <- send srv {| req_method := DELETE; req_url := "/v1/batch/";
                          req_params := None;
                          req_json := Some {[ "memories" := memories ]} |} ;;
  raise_for_status response ;;
  capture_client_event "client.batch_delete" ;;
  response_json response.

Definition batch_delete self memories : M value :=
  api_error_handler (batch_delete_body self memories).

(** [{"schema": schema, **params}] is a new dictionary in which the
    entries of [params] come last. *)
Definition create_memory_export_body (self : MemoryClient) (schema : string) (kw : dict) : M value :=
  kwargs <- new_dict kw ;;
  params <- _prepare_params self (Some kwargs) ;;
  ps <- read_dict params ;;
  json <- new_dict (ps ∪ {[ "schema" := VStr schema ]}) ;;
  body <- read_dict json ;;
  response <- send srv {| req_method := POST; req_url := "/v1/exports/";
                          req_params := None; req_json := Some body |} ;;
  raise_for_status response ;;
  capture_client_event "client.create_memory_export" ;;
  response_json response.

Definition create_memory_export self schema kw : M value :=
  api_error_handler (create_memory_export_body self schema kw).

Definition get_memory_export_body (self : MemoryClient) (kw : dict) : M value :=
  kwargs <- new_dict kw ;;
  params <- _prepare_params self (Some kwargs) ;;
  ps <- read_dict params ;;
  response <- send srv {| req_method := GET; req_url := "/v1/exports/";
                          req_params := Some ps; req_json := None |} ;;
  raise_for_status response ;;
  capture_client_event "client.get_memory_export" ;;
  response_json response.

Definition get_memory_export self kw : M value :=
  api_error_handler (get_memory_export_body self kw).

Definition get_project_body (self : MemoryClient) (fields : value) : M value :=
  if negb (truthy (org_id self) && truthy (project_id self)) then
    raise (ValueError "org_id and project_id must be set to access instructions or categories")
  else
    arg <- new_dict {[ "fields" := fields ]} ;;
    params <- _prepare_params self (Some arg) ;;
    ps <- read_dict params ;;
    response <- send srv {| req_method := GET; req_url := project_url self;
                            req_params := Some ps; req_json := None |} ;;
    raise_for_status response ;;
    capture_client_event "client.get_project_details" ;;
    response_json response.

Definition get_project self fields : M value :=
  api_error_handler (get_project_body self fields).

Definition update_project_body (self : MemoryClient)
    (custom_instructions custom_categories : value) : M value :=
  if negb (truthy (org_id self) && truthy (project_id self)) then
    raise (ValueError "org_id and project_id must be set to update instructions or categories")
  else if negb (is_not_none custom_instructions) && negb (is_not_none custom_categories) then
    raise (ValueError "Currently we only support updating custom_instructions or custom_categories, so you must provide at least one of them")
  else
    arg <- new_dict (<["custom_categories" := custom_categories]>
                       {[ "custom_instructions" := custom_instructions ]}) ;;
    payload <- _prepare_params self (Some arg) ;;
    body <- read_dict payload ;;
    response <- send srv {| req_method := PATCH; req_url := project_url self;
                            req_params := None; req_json := Some body |} ;;
    raise_for_status response ;;
    capture_client_event "client.update_project" ;;
    response_json response.

Definition update_project self custom_instructions custom_categories : M value :=
  api_error_handler (update_project_body self custom_instructions custom_categories).

(** [chat] is not decorated. *)
Definition chat (self : MemoryClient) : M value :=
  raise (NotImplementedError "Chat is not implemented yet").

(** [delete] comes last: the name is also the removal of a key of a
    mapping. *)
Definition delete self memory_id : M value :=
  api_error_handler (delete_body self memory_id).

End Operations.
End SyncRest.

(** ** Construction of the client *)

(** Truth value of a decoded JSON value. *)
Definition value_truthy (v : value) : bool :=
  match v with
  | VNone => false
  | VBool b => b
  | VInt z => negb (z =? 0)
  | VStr s => negb (String.eqb s "")
  | VList l => negb (bool_decide (l = []))
  | VDict kvs => negb (bool_decide (kvs = []))
  end.

(** [data.get(k)]: only a JSON object has the method. *)
Definition dict_get (data : value) (k : string) : M value :=
  match data with
  | VDict kvs => ret (default VNone (assoc k kvs))
  | _ => raise (AttributeError "get")
  end.

Definition invalid_key_message : string :=
  "Invalid API Key. Please get a valid API Key from https://app.mem0.ai".

(** [MemoryClient._validate_api_key]. The method assigns to
    [self.org_id] and [self.project_id] whatever the server sent under
    these keys; the model returns the pair assigned, [None] when the
    assignment is not reached. *)
Definition _validate_api_key (srv : Transport) (self : MemoryClient) : M (option (value * value)) :=
  λ w,
    match (params <- _prepare_params self None ;;
           ps <- read_dict params ;;
           response <- send srv {| req_method := GET; req_url := "/v1/ping/";
                                   req_params := Some ps; req_json := None |} ;;
           raise_for_status response ;;
           if status_code response =? 200 then
             data <- response_json response ;;
             o <- dict_get data "org_id" ;;
             if value_truthy o then
               p <- dict_get data "project_id" ;;
               if value_truthy p then ret (Some (o, p)) else ret None
             else ret None
           else ret None) w with
    | (Raise (HTTPStatusError _), w') => (Raise (ValueError invalid_key_message), w')
    | other => other
    end.

(** [MemoryClient.__init__]. [getenv] is [os.getenv("MEM0_API_KEY")] and
    [local_user_id] is the result of [get_user_id()]; the deprecation
    warning is not part of the model. The object is returned with the
    attributes given by the arguments, beside the assignment made by
    [_validate_api_key]. *)
Definition __init__ (srv : Transport) (getenv : option string) (local_user_id : string)
    (api_key host organization project org_id project_id : option string)
    : M (MemoryClient * option (value * value)) :=
  let key := if truthy api_key then api_key else getenv in
  let host := if truthy host then host else Some "https://api.mem0.ai" in
  if negb (truthy key) then
    raise (ValueError "Mem0 API Key not provided. Please provide an API Key.")
  else
    let self := {| api_key := format_attr key; host := format_attr host;
                   organization := organization; project := project;
                   org_id := org_id; project_id := project_id;
                   user_id := local_user_id |} in
    assigned <- _validate_api_key srv self ;;
    capture_client_event "client.init" ;;
    ret (self, assigned).

(** The object after the assignment of two strings. *)
Definition with_ids (self : MemoryClient) (o p : string) : MemoryClient :=
  {| api_key := api_key self; host := host self;
     organization := organization self; project := project self;
     org_id := Some o; project_id := Some p; user_id := user_id self |}.

(** ** The remaining operations of the asynchronous client *)

(** [self._prepare_params] on an [AsyncMemoryClient]: the class defines
    no such attribute. *)
Definition async_prepare_params {A} : M A :=
  raise (AttributeError "_prepare_params").

Module AsyncRest.
Section Operations.
Context (srv : Transport) (py_str : value → string).

Definition search_body (self : AsyncMemoryClient) (query version : string) (kw : dict) : M value :=
  kwargs <- new_dict kw ;;
  payload <- new_dict {[ "query" := VStr query ]} ;;
  params <- _prepare_params (sync_client self) (Some kwargs) ;;
  ps <- read_dict params ;;
  dict_update payload ps ;;
  body <- read_dict payload ;;
  response <- send srv {| req_method := POST;
                          req_url := "/" +:+ version +:+ "/memories/search/";
                          req_params := None; req_json := Some body |} ;;
  raise_for_status response ;;
  drop_metadata kwargs ;;
  capture_client_event "async_client.search" ;;
  response_json response.

Definition search self query version kw : M (Coroutine value) :=
  api_error_handler (async_def (search_body self query version kw)).

Definition update_body (self : AsyncMemoryClient) (memory_id data : string) : M value :=
  params <- _prepare_params (sync_client self) None ;;
  ps <- read_dict params ;;
  response <- send srv {| req_method := PUT;
                          req_url := "/v1/memories/" +:+ memory_id +:+ "/";
                          req_params := Some ps;
                          req_json := Some {[ "text" := VStr data ]} |} ;;
  raise_for_status response ;;
  capture_client_event "async_client.update" ;;
  response_json response.

Definition update self memory_id data : M (Coroutine value) :=
  api_error_handler (async_def (update_body self memory_id data)).

Definition delete_body (self : AsyncMemoryClient) (memory_id : string) : M value :=
  params <- _prepare_params (sync_client self) None ;;
  ps <- read_dict params ;;
  response <- send srv {| req_method := DELETE;
                          req_url := "/v1/memories/" +:+ memory_id +:+ "/";
                          req_params := Some ps; req_json := None |} ;;
  raise_for_status response ;;
  capture_client_event "async_client.delete" ;;
  response_json response.

Definition delete_all_body (self : AsyncMemoryClient) (kw : dict) : M value :=
  kwargs <- new_dict kw ;;
  params <- _prepare_params (sync_client self) (Some kwargs) ;;
  ps <- read_dict params ;;
  response <- send srv {| req_method := DELETE; req_url := "/v1/memories/";
                          req_params := Some ps; req_json := None |} ;;
  raise_for_status response ;;
  capture_client_event "async_client.delete_all" ;;
  response_json response.

Definition delete_all self kw : M (Coroutine value) :=
  api_error_handler (async_def (delete_all_body self kw)).

Definition history_body (self : AsyncMemoryClient) (memory_id : string) : M value :=
  params <- _prepare_params (sync_client self) None ;;
  ps <- read_dict params ;;
  response <- send srv {| req_method := GET;
                          req_url := "/v1/memories/" +:+ memory_id +:+ "/history/";
                          req_params := Some ps; req_json := None |} ;;
  raise_for_status response ;;
  capture_client_event "async_client.history" ;;
  response_json response.

Definition history self memory_id : M (Coroutine value) :=
  api_error_handler (async_def (history_body self memory_id)).

Definition reset_body (self : AsyncMemoryClient) : M value :=
  await (Async.delete_users srv py_str self) ;;
  capture_client_event "async_client.reset" ;;
  ret (VDict [("message", VStr "Client reset successful. All users and memories deleted.")]).

Definition reset self : M (Coroutine value) :=
  api_error_handler (async_def (reset_body self)).

Definition batch_update_body (self : AsyncMemoryClient) (memories : value) : M value :=
  response <- send srv {| req_method := PUT; req_url := "/v1/batch/";
                          req_params := None;
                          req_json := Some {[ "memories" := memories ]} |} ;;
  raise_for_status response ;;
  capture_client_event "async_client.batch_update" ;;
  response_json response.

Definition batch_update self memories : M (Coroutine value) :=
  api_error_handler (async_def (batch_update_body self memories)).

Definition batch_delete_body (self : AsyncMemoryClient) (memories : value) : M value :=
  response <- send srv {| req_method := DELETE; req_url := "/v1/batch/";
                          req_params := None;
                          req_json := Some {[ "memories" := memories ]} |} ;;
  raise_for_status response ;;
  capture_client_event "async_client.batch_delete" ;;
  response_json response.

Definition batch_delete self memories : M (Coroutine value) :=
  api_error_handler (async_def (batch_delete_body self memories)).

(** The argument [json={"schema": schema, **self._prepare_params(kwargs)}]
    is evaluated before the request is made. *)
Definition create_memory_export_body (self : AsyncMemoryClient) (schema : string) (kw : dict) : M value :=
  kwargs <- new_dict kw ;;
  params <- async_prepare_params ;;
  ps <- read_dict params ;;
  json <- new_dict (ps ∪ {[ "schema" := VStr schema ]}) ;;
  body <- read_dict json ;;
  response <- send srv {| req_method := POST; req_url := "/v1/exports/";
                          req_params := None; req_json := Some body |} ;;
  raise_for_status response ;;
  capture_client_event "async_client.create_memory_export" ;;
  response_json response.

Definition create_memory_export self schema kw : M (Coroutine value) :=
  api_error_handler (async_def (create_memory_export_body self schema kw)).

Definition get_memory_export_body (self : AsyncMemoryClient) (kw : dict) : M value :=
  kwargs <- new_dict kw ;;
  params <- async_prepare_params ;;
  ps <- read_dict params ;;
  response <- send srv {| req_method := GET; req_url := "/v1/exports/";
                          req_params := Some ps; req_json := None |} ;;
  raise_for_status response ;;
  capture_client_event "async_client.get_memory_export" ;;
  response_json response.

Definition get_memory_export self kw : M (Coroutine value) :=
  api_error_handler (async_def (get_memory_export_body self kw)).

Definition get_project_body (self : AsyncMemoryClient) (fields : value) : M value :=
  if negb (truthy (org_id (sync_client self)) && truthy (project_id (sync_client self))) then
    raise (ValueError "org_id and project_id must be set to access instructions or categories")
  else
    params <- async_prepare_params ;;
    ps <- read_dict params ;;
    response <- send srv {| req_method := GET;
                            req_url := project_url (sync_client self);
                            req_params := Some ps; req_json := None |} ;;
    raise_for_status response ;;
    capture_client_event "async_client.get_project" ;;
    response_json response.

Definition get_project self fields : M (Coroutine value) :=
  api_error_handler (async_def (get_project_body self fields)).

Definition update_project_body (self : AsyncMemoryClient)
    (custom_instructions custom_categories : value) : M value :=
  if negb (truthy (org_id (sync_client self)) && truthy (project_id (sync_client self))) then
    raise (ValueError "org_id and project_id must be set to update instructions or categories")
  else
    arg <- new_dict (<["custom_categories" := custom_categories]>
                       {[ "custom_instructions" := custom_instructions ]}) ;;
    payload <- _prepare_params (sync_client self) (Some arg) ;;
    body <- read_dict payload ;;
    response <- send srv {| req_method := PATCH;
                            req_url := project_url (sync_client self);
                            req_params := None; req_json := Some body |} ;;
    raise_for_status response ;;
    capture_client_event "async_client.update_project" ;;
    response_json response.

Definition update_project self custom_instructions custom_categories : M (Coroutine value) :=
  api_error_handler (async_def (update_project_body self custom_instructions custom_categories)).

(** [chat] is not decorated. *)
Definition chat (self : AsyncMemoryClient) : M (Coroutine value) :=
  async_def (raise (NotImplementedError "Chat is not implemented yet")).

Definition delete self memory_id : M (Coroutine value) :=
  api_error_handler (async_def (delete_body self memory_id)).

End Operations.
End AsyncRest.

(** ** Vocabulary of the statements *)

(** What a successful reconciliation writes into the mapping it was given
    (the assignments of lines 530-532 and 537-539). *)
Definition inject (self : MemoryClient) (m : dict) : dict :=
  let m1 := if truthy (org_id self) && truthy (project_id self)
            then <["project_id" := str_value (project_id self)]>
                   (<["org_id" := str_value (org_id self)]> m)
            else m in
  if truthy (organization self) && truthy (project self)
  then <["project_name" := str_value (project self)]>
         (<["org_name" := str_value (organization self)]> m1)
  else m1.

(** The message of the [ValueError] that reconciliation raises, if any. *)
Definition config_error (self : MemoryClient) : option string :=
  if (truthy (org_id self) || truthy (project_id self))
     && (truthy (organization self) || truthy (project self))
  then Some both_pairs_message
  else if xorb (truthy (org_id self)) (truthy (project_id self))
  then Some "Please provide both org_id and project_id"
  else if xorb (truthy (organization self)) (truthy (project self))
  then Some "Please provide both org_name and project_name"
  else None.

(** The optional argument of [_prepare_params] is [None] or a reference
    to a dictionary of the store. *)
Definition valid_arg (w : World) (kwargs : option ref) : Prop :=
  match kwargs with
  | Some l => is_Some (heap w !! l)
  | None => True
  end.

(** Two sessions with the same four identifier fields. *)
Definition same_identifiers (a b : MemoryClient) : Prop :=
  organization a = organization b ∧ project a = project b ∧
  org_id a = org_id b ∧ project_id a = project_id b.

(** Two outcomes that fail alike, or return mappings with the same
    entries. *)
Definition same_outcome (a b : Result ref * World) : Prop :=
  match a.1, b.1 with
  | Ok r1, Ok r2 => heap a.2 !! r1 = heap b.2 !! r2
  | Raise e1, Raise e2 => e1 = e2
  | _, _ => False
  end.

(** Concrete sessions and stores used in examples. *)
Definition session (organization project org_id project_id : option string) : MemoryClient :=
  {| api_key := "key"; host := "https://api.mem0.ai";
     organization := organization; project := project;
     org_id := org_id; project_id := project_id; user_id := "me" |}.

Definition plain_session := session None None None None.
Definition id_session := session None None (Some "o1") (Some "p1").
Definition name_session := session (Some "acme") (Some "memo") None None.
Definition both_session := session (Some "acme") (Some "memo") (Some "o1") (Some "p1").
Definition half_session := session None None (Some "o1") None.

Definition empty_world : World := {| heap := ∅; requests := []; events := [] |}.

Definition world_with (d : dict) : World :=
  {| heap := {[ 0%nat := d ]}; requests := []; events := [] |}.

Definition conflicting_kwargs : dict :=
  <["org_id" := VStr "other"]> (<["user_id" := VStr "u1"]> (<["run_id" := VNone]> ∅)).

(** A remote side that answers every request with [200] and an empty
    JSON object, one that answers [500], and one that cannot be reached. *)
Definition ok_response : Response :=
  {| status_code := 200; text := "{}"; json_value := Some (VDict []) |}.
Definition error_response : Response :=
  {| status_code := 500; text := "Internal Server Error"; json_value := None |}.
Definition ok_server : Transport := λ _ _, Responded ok_response.
Definition failing_server : Transport := λ _ _, Responded error_response.
Definition unreachable_server : Transport := λ _ _, Failed "connection refused".

Definition async_of (c : MemoryClient) : AsyncMemoryClient := {| sync_client := c |}.

Definition paged_kwargs : dict :=
  <["page" := VInt 1]> (<["page_size" := VInt 50]> (<["user_id" := VStr "u1"]> ∅)).

(** A computation that issues no request. *)
Definition keeps_requests {A} (c : M A) : Prop :=
  ∀ w, requests (c w).2 = requests w.

(** The [DELETE] request of [delete_users] for one entity of the
    listing, when the entity has a ["type"] and an ["id"]. *)
Definition entity_delete (py_str : value → string) (ps : dict) (entity : value) : option Request :=
  match entity with
  | VDict kvs =>
      match assoc "type" kvs, assoc "id" kvs with
      | Some ty, Some id => Some (Sync.entity_request py_str ty id ps)
      | _, _ => None
      end
  | _ => None
  end.

(** Every request of [rs], issued in turn after [log], gets a 2xx
    response. *)
Fixpoint all_succeed (srv : Transport) (log rs : list Request) : Prop :=
  match rs with
  | [] => True
  | r :: rest =>
      (∃ resp, srv log r = Responded resp ∧ is_success resp = true) ∧
      all_succeed srv (log ++ [r]) rest
  end.

(** The exception with which request [r] fails when issued after [log]:
    a transport failure, or a response that is not 2xx. *)
Definition failure (srv : Transport) (log : list Request) (r : Request) : option exn :=
  match srv log r with
  | Failed msg => Some (RequestError msg)
  | Responded resp =>
      if is_success resp then None else Some (HTTPStatusError resp)
  end.

(** The listing request of [users]. *)
Definition listing_request (ps : dict) : Request :=
  {| req_method := GET; req_url := "/v1/entities/";
     req_params := Some ps; req_json := None |}.

Definition entity (ty id : string) : value :=
  VDict [("id", VStr id); ("type", VStr ty)].

Definition listing_of (items : list value) : Response :=
  {| status_code := 200; text := "";
     json_value := Some (VDict [("results", VList items)]) |}.

(** A remote side with three entities that refuses the second deletion. *)
Definition three_entities : list value :=
  [entity "user" "alice"; entity "agent" "bot"; entity "user" "carol"].

Definition refuses_second : Transport :=
  λ log r,
    match req_method r with
    | GET => Responded (listing_of three_entities)
    | _ => if (length log =? 2)%nat then Responded error_response
           else Responded ok_response
    end.

(** What an operation returns or raises once request [r] has been
    issued after [log]: the decoded body of a 2xx response, or the
    failure of the transport, of the status check or of the decoding. *)
Definition exchange (srv : Transport) (log : list Request) (r : Request) : Result value :=
  match srv log r with
  | Failed msg => Raise (RequestError msg)
  | Responded resp =>
      if is_success resp then
        match json_value resp with
        | Some v => Ok v
        | None => Raise JSONDecodeError
        end
      else Raise (HTTPStatusError resp)
  end.

(** Request [r], issued after [log], gets a 2xx response. *)
Definition accepted (srv : Transport) (log : list Request) (r : Request) : bool :=
  match srv log r with
  | Responded resp => is_success resp
  | Failed _ => false
  end.

(** A result seen through the error boundary. *)
Definition translated {A} (res : Result A) : Result A :=
  match res with
  | Ok a => Ok a
  | Raise e => Raise (except_clauses e)
  end.

(** The outcome [out] of a run started in [w]: its result, the requests
    it issued and the telemetry events it emitted. *)
Definition observes {A} (out : Result A * World) (w : World)
    (res : Result A) (reqs : list Request) (evs : list string) : Prop :=
  out.1 = res ∧ requests out.2 = (requests w ++ reqs)%list ∧
  events out.2 = (events w ++ evs)%list.

(** The parameters that reconciliation makes of the keyword arguments
    [kw] of a call. *)
Definition reconciled (self : MemoryClient) (kw : dict) : dict :=
  drop_none (inject self kw).

Definition request (method : Method) (url : string) (params json : option dict) : Request :=
  {| req_method := method; req_url := url; req_params := params; req_json := json |}.

Definition deleted_message : value :=
  VDict [("message", VStr "All users, agents, and sessions deleted.")].

Definition reset_message : value :=
  VDict [("message", VStr "Client reset successful. All users and memories deleted.")].

Definition legacy_ping : Transport :=
  λ _ _, Responded {| status_code := 200; text := "";
                      json_value := Some (VDict [("org_id", VStr "o1");
                                                 ("project_id", VStr "p1")]) |}.

(** A run that raises [ValueError] with message [msg] and issues no
    request. *)
Definition refused {A} (out : Result A * World) (w : World) (msg : string) : Prop :=
  out.1 = Raise (ValueError msg) ∧ requests out.2 = requests w.

(** The ["messages"] entry that the payload builder makes of its
    argument. *)
Definition message_field (messages : value) : dict :=
  match messages with
  | VStr s => {[ "messages" := VList [user_message s] ]}
  | VList _ => {[ "messages" := messages ]}
  | _ => ∅
  end.

(** A remote side that lists three entities and accepts every
    deletion. *)
Definition accepts_all : Transport :=
  λ _ r,
    match req_method r with
    | GET => Responded (listing_of three_entities)
    | _ => Responded ok_response
    end.

(** The request of [_validate_api_key]. *)
Definition ping_request (self : MemoryClient) : Request :=
  request GET "/v1/ping/" (Some (reconciled self ∅)) None.

(** What [_validate_api_key] assigns when the decoded body is [data]. *)
Definition ids_of (kvs : list (string * value)) : option (value * value) :=
  let o := default VNone (assoc "org_id" kvs) in
  let p := default VNone (assoc "project_id" kvs) in
  if value_truthy o && value_truthy p then Some (o, p) else None.

(** * Properties *)

(** ** Parameter reconciliation *)

Lemma set_heap_id w : set_heap (heap w) w = w.
Proof. by destruct w. Qed.

Lemma drop_none_lookup (m : dict) k v :
  drop_none m !! k = Some v ↔ m !! k = Some v ∧ v ≠ VNone.
Proof.
  unfold drop_none. rewrite map_lookup_filter_Some. simpl.
  split; intros [H1 H2]; split; try done.
  - intros ->. done.
  - by destruct v.
Qed.

Lemma drop_none_lookup_None (m : dict) k :
  drop_none m !! k = None ↔ m !! k = None ∨ m !! k = Some VNone.
Proof.
  unfold drop_none. rewrite map_lookup_filter_None. simpl. split.
  - intros [H | H]; [by left |].
    destruct (m !! k) as [v|] eqn:E; [| by left].
    right. destruct v; try done; by specialize (H _ eq_refl).
  - intros [H | H]; [by left |]. right. intros v Hv.
    rewrite H in Hv. by inversion Hv.
Qed.

(** The outcome of reconciliation in closed form. *)
Lemma prepare_params_Some self l m w :
  heap w !! l = Some m →
  _prepare_params self (Some l) w =
    match config_error self with
    | Some msg => (Raise (ValueError msg), w)
    | None =>
        let r := fresh (dom (heap w)) in
        (Ok r, set_heap (<[r := drop_none (inject self m)]>
                           (<[l := inject self m]> (heap w))) w)
    end.
Proof.
  intros Hl.
  assert (Hdom : ∀ d, dom (<[l := d]> (heap w)) = dom (heap w)).
  { intros d. apply dom_insert_lookup_L. by rewrite Hl. }
  unfold _prepare_params, config_error, inject, dict_setitem, read_dict,
    write_dict, new_dict, bind, ret, raise.
  destruct (truthy (org_id self)), (truthy (project_id self)),
    (truthy (organization self)), (truthy (project self)); simpl;
    rewrite ?Hl; simpl; rewrite ?lookup_insert_eq; simpl;
    rewrite ?lookup_insert_eq; simpl; rewrite ?insert_insert_eq, ?Hdom;
    try done.
  by rewrite (insert_id _ _ _ Hl).
Qed.

(** Without an argument the method works on a dictionary of its own. *)
Lemma prepare_params_None self w :
  _prepare_params self None w =
    let l := fresh (dom (heap w)) in
    _prepare_params self (Some l) (set_heap (<[l := ∅]> (heap w)) w).
Proof. reflexivity. Qed.

Lemma fresh_ref_unused (h : gmap ref dict) : h !! fresh (dom h) = None.
Proof. apply not_elem_of_dom, is_fresh. Qed.

Lemma config_error_ids self :
  truthy (org_id self) = true → truthy (project_id self) = true →
  truthy (organization self) = false → truthy (project self) = false →
  config_error self = None.
Proof. unfold config_error. by intros -> -> -> ->. Qed.

Lemma config_error_plain self :
  truthy (org_id self) = false → truthy (project_id self) = false →
  truthy (organization self) = false → truthy (project self) = false →
  config_error self = None.
Proof. unfold config_error. by intros -> -> -> ->. Qed.

Lemma inject_plain self m :
  truthy (org_id self) = false → truthy (project_id self) = false →
  truthy (organization self) = false → truthy (project self) = false →
  inject self m = m.
Proof. unfold inject. by intros -> -> -> ->. Qed.

Lemma valid_arg_cases w kwargs :
  valid_arg w kwargs →
  ∃ l m w1, heap w1 !! l = Some m ∧
    ∀ self, _prepare_params self kwargs w = _prepare_params self (Some l) w1.
Proof.
  destruct kwargs as [l|]; simpl.
  - intros [m Hm]. by exists l, m, w.
  - intros _. eexists _, ∅, _. split; [| intros self; apply prepare_params_None].
    apply lookup_insert_eq.
Qed.

(** C1: a session whose org ID and project ID are both set (true in
    Python: neither [None] nor empty) and whose legacy names are unset
    returns, for every argument, a mapping that binds ["org_id"] and
    ["project_id"] to the session's values, whatever the caller had put
    under those keys. *)
Theorem prepare_params_injects_ids self kwargs w o p :
  org_id self = Some o → truthy (org_id self) = true →
  project_id self = Some p → truthy (project_id self) = true →
  truthy (organization self) = false → truthy (project self) = false →
  valid_arg w kwargs →
  ∃ r w' out,
    _prepare_params self kwargs w = (Ok r, w') ∧
    heap w' !! r = Some out ∧
    out !! "org_id" = Some (VStr o) ∧
    out !! "project_id" = Some (VStr p).
Proof.
  intros Ho To Hp Tp Tn1 Tn2 Hv.
  destruct (valid_arg_cases w kwargs Hv) as (l & m & w1 & Hl & Heq).
  rewrite Heq, (prepare_params_Some _ _ _ _ Hl), config_error_ids by done.
  simpl. eexists _, _, _. split; [reflexivity |]. simpl.
  split; [apply lookup_insert_eq |].
  unfold inject. rewrite To, Tp, Tn1, Tn2, Ho, Hp. simpl.
  split; apply drop_none_lookup; split; try done.
  - rewrite lookup_insert_ne by done. apply lookup_insert_eq.
  - apply lookup_insert_eq.
Qed.

Lemma prepare_params_injects_ids_witness :
  ∃ r w' out,
    _prepare_params id_session (Some 0%nat) (world_with conflicting_kwargs) = (Ok r, w') ∧
    heap w' !! r = Some out ∧
    out !! "org_id" = Some (VStr "o1") ∧
    out !! "project_id" = Some (VStr "p1").
Proof.
  apply (prepare_params_injects_ids id_session (Some 0%nat)
           (world_with conflicting_kwargs) "o1" "p1"); try reflexivity.
  exists conflicting_kwargs. reflexivity.
Defined.

Lemma prepare_params_error self kwargs w msg :
  config_error self = Some msg → valid_arg w kwargs →
  ∃ w', _prepare_params self kwargs w = (Raise (ValueError msg), w') ∧
        (∀ l, is_Some (heap w !! l) → heap w' !! l = heap w !! l) ∧
        requests w' = requests w ∧ events w' = events w.
Proof.
  intros He Hv. destruct kwargs as [l|].
  - destruct Hv as [m Hm]. exists w.
    by rewrite (prepare_params_Some _ _ _ _ Hm), He.
  - eexists. rewrite prepare_params_None. simpl.
    erewrite prepare_params_Some by apply lookup_insert_eq.
    rewrite He. split; [reflexivity |]. simpl. split; [| done].
    intros l [d Hd]. apply lookup_insert_ne. intros <-.
    by rewrite fresh_ref_unused in Hd.
Qed.

(** C2: when both the legacy name pair and the ID pair are configured,
    reconciliation raises [ValueError] for every argument; no mapping is
    returned and no mapping of the store is touched. *)
Theorem prepare_params_rejects_both_pairs self kwargs w :
  truthy (org_id self) = true → truthy (project_id self) = true →
  truthy (organization self) = true → truthy (project self) = true →
  valid_arg w kwargs →
  ∃ msg w',
    _prepare_params self kwargs w = (Raise (ValueError msg), w') ∧
    (∀ l, is_Some (heap w !! l) → heap w' !! l = heap w !! l) ∧
    requests w' = requests w.
Proof.
  intros T1 T2 T3 T4 Hv. exists both_pairs_message.
  destruct (prepare_params_error self kwargs w both_pairs_message) as (w' & ? & ? & ? & ?);
    [| done | by exists w'].
  unfold config_error. by rewrite T1, T2, T3, T4.
Qed.

Lemma prepare_params_rejects_both_pairs_witness :
  ∃ msg w',
    _prepare_params both_session (Some 0%nat) (world_with conflicting_kwargs)
      = (Raise (ValueError msg), w') ∧
    (∀ l, is_Some (heap (world_with conflicting_kwargs) !! l) →
          heap w' !! l = heap (world_with conflicting_kwargs) !! l) ∧
    requests w' = requests (world_with conflicting_kwargs).
Proof.
  apply (prepare_params_rejects_both_pairs both_session (Some 0%nat)
           (world_with conflicting_kwargs)); try reflexivity.
  exists conflicting_kwargs. reflexivity.
Defined.

(** C3: a session with exactly one of org ID / project ID set, or with
    exactly one of the legacy org name / project name set, makes
    reconciliation raise [ValueError] for every argument. *)
Theorem prepare_params_rejects_half_pair self kwargs w :
  xorb (truthy (org_id self)) (truthy (project_id self)) = true ∨
  xorb (truthy (organization self)) (truthy (project self)) = true →
  valid_arg w kwargs →
  ∃ msg w', _prepare_params self kwargs w = (Raise (ValueError msg), w').
Proof.
  intros Hx Hv.
  assert (∃ msg, config_error self = Some msg) as [msg Hmsg].
  { unfold config_error.
    destruct (truthy (org_id self)), (truthy (project_id self)),
      (truthy (organization self)), (truthy (project self));
      simpl in *; eauto; destruct Hx; discriminate. }
  destruct (prepare_params_error self kwargs w msg Hmsg Hv) as (w' & ? & _).
  by exists msg, w'.
Qed.

Lemma prepare_params_rejects_half_pair_witness :
  ∃ msg w',
    _prepare_params half_session (Some 0%nat) (world_with conflicting_kwargs)
      = (Raise (ValueError msg), w').
Proof.
  apply (prepare_params_rejects_half_pair half_session (Some 0%nat)
           (world_with conflicting_kwargs)).
  - left. reflexivity.
  - exists conflicting_kwargs. reflexivity.
Defined.

(** C4: a session with none of the four identifiers set returns, for an
    input mapping [m], a mapping whose entries are exactly the entries
    of [m] with a non-null value. *)
Theorem prepare_params_plain self l m w :
  truthy (org_id self) = false → truthy (project_id self) = false →
  truthy (organization self) = false → truthy (project self) = false →
  heap w !! l = Some m →
  ∃ r w' out,
    _prepare_params self (Some l) w = (Ok r, w') ∧
    heap w' !! r = Some out ∧
    (∀ k v, out !! k = Some v ↔ m !! k = Some v ∧ v ≠ VNone).
Proof.
  intros T1 T2 T3 T4 Hl.
  rewrite (prepare_params_Some _ _ _ _ Hl), config_error_plain, inject_plain by done.
  simpl. eexists _, _, _. split; [reflexivity |]. simpl.
  split; [apply lookup_insert_eq |]. apply drop_none_lookup.
Qed.

Lemma prepare_params_plain_witness :
  ∃ r w' out,
    _prepare_params plain_session (Some 0%nat) (world_with conflicting_kwargs) = (Ok r, w') ∧
    heap w' !! r = Some out ∧
    (∀ k v, out !! k = Some v ↔ conflicting_kwargs !! k = Some v ∧ v ≠ VNone).
Proof.
  apply (prepare_params_plain plain_session 0%nat conflicting_kwargs
           (world_with conflicting_kwargs)); reflexivity.
Defined.

Lemma same_identifiers_inject a b m : same_identifiers a b → inject a m = inject b m.
Proof. intros (H1 & H2 & H3 & H4). unfold inject. by rewrite H1, H2, H3, H4. Qed.

Lemma same_identifiers_config_error a b :
  same_identifiers a b → config_error a = config_error b.
Proof. intros (H1 & H2 & H3 & H4). unfold config_error. by rewrite H1, H2, H3, H4. Qed.

(** The caller's mapping is written to: the claim of C9 fails at this
    input. *)
Lemma prepare_params_mutates_argument :
  let before := world_with {[ "user_id" := VStr "u1" ]} in
  let after := (_prepare_params id_session (Some 0%nat) before).2 in
  heap before !! 0%nat = Some {[ "user_id" := VStr "u1" ]} ∧
  heap after !! 0%nat =
    Some (<["project_id" := VStr "p1"]>
            (<["org_id" := VStr "o1"]> {[ "user_id" := VStr "u1" ]})) ∧
  heap after !! 0%nat ≠ heap before !! 0%nat.
Proof.
  simpl. split; [reflexivity |].
  assert (E : heap (_prepare_params id_session (Some 0%nat)
                      (world_with {[ "user_id" := VStr "u1" ]})).2 !! 0%nat
              = Some (<["project_id" := VStr "p1"]>
                        (<["org_id" := VStr "o1"]> {[ "user_id" := VStr "u1" ]})))
    by (vm_compute; reflexivity).
  split; [exact E |]. rewrite E. intros Heq.
  apply (f_equal (λ o : option dict, o ≫= (.!! "org_id"))) in Heq.
  vm_compute in Heq. discriminate.
Qed.

(** C9, as the code has it: reconciliation touches neither the request
    log nor the telemetry, its outcome depends only on the four
    identifier fields and on the entries of the input mapping, the
    mapping it returns is a new object of the store, and every other
    mapping is left as it was; the caller's mapping itself receives the
    session's identifiers when the call succeeds (it is unchanged when no
    pair is set), and is unchanged when the call fails. *)
Theorem prepare_params_effects self l m w :
  heap w !! l = Some m →
  let out := _prepare_params self (Some l) w in
  requests out.2 = requests w ∧ events out.2 = events w ∧
  (∀ l', l' ≠ l → is_Some (heap w !! l') → heap out.2 !! l' = heap w !! l') ∧
  match out.1 with
  | Raise e => heap out.2 = heap w
  | Ok r => heap w !! r = None ∧
            heap out.2 !! r = Some (drop_none (inject self m)) ∧
            heap out.2 !! l = Some (inject self m)
  end ∧
  (truthy (org_id self) = false → truthy (organization self) = false →
   heap out.2 !! l = Some m) ∧
  (∀ self' l' w', same_identifiers self self' → heap w' !! l' = Some m →
     same_outcome out (_prepare_params self' (Some l') w')).
Proof.
  intros Hl out. subst out.
  rewrite (prepare_params_Some _ _ _ _ Hl).
  assert (Hfresh : fresh (dom (heap w)) ≠ l).
  { intros E. pose proof (fresh_ref_unused (heap w)) as F. rewrite E in F. congruence. }
  split_and!.
  - by destruct (config_error self).
  - by destruct (config_error self).
  - intros l' Hne [d Hd]. destruct (config_error self); simpl; [done |].
    rewrite lookup_insert_ne, lookup_insert_ne; auto.
    intros E. rewrite <- E, fresh_ref_unused in Hd. done.
  - destruct (config_error self); simpl; [done |]. split_and!.
    + apply fresh_ref_unused.
    + apply lookup_insert_eq.
    + rewrite lookup_insert_ne by done. apply lookup_insert_eq.
  - intros T1 T2. destruct (config_error self) eqn:E; simpl; [done |].
    rewrite lookup_insert_ne by done. rewrite lookup_insert_eq.
    f_equal. unfold inject. rewrite T1, T2. done.
  - intros self' l' w' Hs Hl'.
    rewrite (prepare_params_Some _ _ _ _ Hl').
    rewrite <- (same_identifiers_config_error _ _ Hs), <- (same_identifiers_inject _ _ _ Hs).
    unfold same_outcome. destruct (config_error self); simpl; [done |].
    by rewrite !lookup_insert_eq.
Qed.

Lemma prepare_params_effects_witness :
  let w := world_with conflicting_kwargs in
  let out := _prepare_params id_session (Some 0%nat) w in
  requests out.2 = requests w ∧ events out.2 = events w ∧
  (∀ l', l' ≠ 0%nat → is_Some (heap w !! l') → heap out.2 !! l' = heap w !! l') ∧
  match out.1 with
  | Raise e => heap out.2 = heap w
  | Ok r => heap w !! r = None ∧
            heap out.2 !! r = Some (drop_none (inject id_session conflicting_kwargs)) ∧
            heap out.2 !! 0%nat = Some (inject id_session conflicting_kwargs)
  end ∧
  (truthy (org_id id_session) = false → truthy (organization id_session) = false →
   heap out.2 !! 0%nat = Some conflicting_kwargs) ∧
  (∀ self' l' w', same_identifiers id_session self' →
     heap w' !! l' = Some conflicting_kwargs →
     same_outcome out (_prepare_params self' (Some l') w')).
Proof.
  apply (prepare_params_effects id_session 0%nat conflicting_kwargs
           (world_with conflicting_kwargs)). reflexivity.
Defined.

(** ** Payload builder *)

(** The [messages] entry that the builder writes before merging. *)
Lemma prepare_payload_run messages kwargs kw w :
  heap w !! kwargs = Some kw →
  _prepare_payload messages kwargs w =
    let p := fresh (dom (heap w)) in
    let own : dict := match messages with
                      | VStr s => {[ "messages" := VList [user_message s] ]}
                      | VList _ => {[ "messages" := messages ]}
                      | _ => ∅
                      end in
    (Ok p, set_heap (<[p := drop_none kw ∪ own]> (heap w)) w).
Proof.
  intros Hk.
  assert (Hne : fresh (dom (heap w)) ≠ kwargs).
  { intros E. pose proof (fresh_ref_unused (heap w)) as F. rewrite E in F. congruence. }
  unfold _prepare_payload, dict_update, dict_setitem, read_dict, write_dict,
    new_dict, bind, ret.
  destruct messages; simpl; rewrite ?lookup_insert_eq; simpl;
    rewrite ?lookup_insert_eq, ?insert_insert_eq; simpl;
    rewrite ?lookup_insert_ne, ?Hk by done; simpl;
    rewrite ?lookup_insert_eq; simpl; rewrite ?insert_insert_eq; try done.
Qed.

(** C7: for a string [s] the payload's ["messages"] field is the
    one-element list [[{"role": "user", "content": s}]], for a list it
    is that list unchanged; in both cases every non-null option is a
    top-level field of the payload and no null option is. The options
    are those that [add] passes on: they hold no entry named
    ["messages"], which is a parameter of [add] and not a key that
    reconciliation adds. *)
Theorem prepare_payload_messages messages kwargs kw w :
  heap w !! kwargs = Some kw →
  kw !! "messages" = None →
  ∃ p w' payload,
    _prepare_payload messages kwargs w = (Ok p, w') ∧
    heap w' !! p = Some payload ∧
    (∀ s, messages = VStr s →
          payload !! "messages" =
            Some (VList [VDict [("role", VStr "user"); ("content", VStr s)]])) ∧
    (∀ l, messages = VList l → payload !! "messages" = Some (VList l)) ∧
    (∀ k v, kw !! k = Some v → v ≠ VNone → payload !! k = Some v) ∧
    (∀ k, kw !! k = Some VNone → payload !! k = None) ∧
    (∀ k, k ≠ "messages" → kw !! k = None → payload !! k = None).
Proof.
  intros Hk Hm. rewrite (prepare_payload_run _ _ _ _ Hk). simpl.
  eexists _, _, _. split; [reflexivity |]. simpl.
  split; [apply lookup_insert_eq |].
  assert (Hown : ∀ k, k ≠ "messages" →
            (match messages with
             | VStr s => {[ "messages" := VList [user_message s] ]}
             | VList _ => {[ "messages" := messages ]}
             | _ => ∅
             end : dict) !! k = None).
  { intros k Hne. destruct messages; try apply lookup_empty;
      by apply lookup_singleton_ne. }
  assert (Hdrop : drop_none kw !! "messages" = None).
  { apply drop_none_lookup_None. by left. }
  split_and!.
  - intros s ->. rewrite lookup_union_r by done.
    rewrite lookup_singleton_eq. reflexivity.
  - intros l ->. rewrite lookup_union_r by done. apply lookup_singleton_eq.
  - intros k v Hkv Hv. apply lookup_union_Some_l, drop_none_lookup. done.
  - intros k Hnull.
    assert (Hne : k ≠ "messages") by (intros ->; congruence).
    apply lookup_union_None. split; [| by apply Hown].
    apply drop_none_lookup_None. by right.
  - intros k Hne Hnone. apply lookup_union_None. split; [| by apply Hown].
    apply drop_none_lookup_None. by left.
Qed.

Lemma prepare_payload_messages_witness :
  ∃ p w' payload,
    _prepare_payload (VStr "hi") 0%nat (world_with conflicting_kwargs) = (Ok p, w') ∧
    heap w' !! p = Some payload ∧
    (∀ s, VStr "hi" = VStr s →
          payload !! "messages" =
            Some (VList [VDict [("role", VStr "user"); ("content", VStr s)]])) ∧
    (∀ l, VStr "hi" = VList l → payload !! "messages" = Some (VList l)) ∧
    (∀ k v, conflicting_kwargs !! k = Some v → v ≠ VNone → payload !! k = Some v) ∧
    (∀ k, conflicting_kwargs !! k = Some VNone → payload !! k = None) ∧
    (∀ k, k ≠ "messages" → conflicting_kwargs !! k = None → payload !! k = None).
Proof.
  apply (prepare_payload_messages (VStr "hi") 0%nat conflicting_kwargs
           (world_with conflicting_kwargs)); reflexivity.
Defined.

(** ** Running the client monad *)

Lemma bind_Ok {A B} (c : M A) (k : A → M B) w a w' :
  c w = (Ok a, w') → bind c k w = k a w'.
Proof. unfold bind. by intros ->. Qed.

Lemma bind_Raise {A B} (c : M A) (k : A → M B) w e w' :
  c w = (Raise e, w') → bind c k w = (Raise e, w').
Proof. unfold bind. by intros ->. Qed.

(** Reconciliation of the [**kwargs] of a call. *)
Lemma prepare_call_kwargs {B} self kw (k : ref → ref → M B) w :
  (kwargs <- new_dict kw ;; params <- _prepare_params self (Some kwargs) ;;
   k kwargs params) w =
  let l := fresh (dom (heap w)) in
  let h1 := <[l := kw]> (heap w) in
  match config_error self with
  | Some msg => (Raise (ValueError msg), set_heap h1 w)
  | None =>
      let r := fresh (dom h1) in
      k l r (set_heap (<[r := drop_none (inject self kw)]>
                         (<[l := inject self kw]> h1)) w)
  end.
Proof.
  unfold bind at 1. simpl. unfold bind at 1.
  erewrite prepare_params_Some by apply lookup_insert_eq.
  destruct (config_error self); simpl; [done |].
  by rewrite insert_insert_eq.
Qed.

(** Awaiting the coroutine of a decorated [async def] runs its body
    outside the [try] of the wrapper. *)
Lemma await_decorated {A} (body : M A) w :
  await (api_error_handler (async_def body)) w = body w.
Proof. reflexivity. Qed.

Lemma api_error_handler_run {A} (func : M A) w :
  api_error_handler func w =
    (match (func w).1 with
     | Ok a => Ok a
     | Raise e => Raise (except_clauses e)
     end, (func w).2).
Proof. unfold api_error_handler. by destruct (func w) as [[a|e] w']. Qed.

Lemma get_all_body_unknown_version srv self version kw w :
  version ≠ "v1" → version ≠ "v2" →
  let out := Sync.get_all_body srv self version kw w in
  out.1 = match config_error self with
          | Some msg => Raise (ValueError msg)
          | None => Raise (UnboundLocalError "response")
          end ∧
  requests out.2 = requests w ∧
  Async.get_all_body srv (async_of self) version kw w = out.
Proof.
  intros H1 H2. apply String.eqb_neq in H1, H2. simpl.
  unfold Sync.get_all_body, Async.get_all_body.
  rewrite !prepare_call_kwargs. simpl. rewrite H1, H2.
  by destruct (config_error self).
Qed.

(** C10, as the code has it: with a version that is neither ["v1"] nor
    ["v2"], [get_all] issues no request on either client; it fails with
    the [ValueError] of reconciliation when the session's identifiers
    are rejected, and otherwise with [UnboundLocalError] for the local
    [response]; it never fails with [APIError]. *)
Theorem get_all_unknown_version srv self version kw w :
  version ≠ "v1" → version ≠ "v2" →
  let expected : Result value :=
    match config_error self with
    | Some msg => Raise (ValueError msg)
    | None => Raise (UnboundLocalError "response")
    end in
  let sync := Sync.get_all srv self version kw w in
  let async := await (Async.get_all srv (async_of self) version kw) w in
  sync.1 = expected ∧ requests sync.2 = requests w ∧
  async.1 = expected ∧ requests async.2 = requests w.
Proof.
  intros H1 H2. simpl.
  destruct (get_all_body_unknown_version srv self version kw w H1 H2)
    as (Hr & Hq & Ha).
  unfold Async.get_all, Sync.get_all.
  rewrite await_decorated, api_error_handler_run, Ha, Hr. simpl.
  split_and!; try done; by destruct (config_error self).
Qed.

Lemma get_all_unknown_version_witness :
  let expected : Result value :=
    match config_error plain_session with
    | Some msg => Raise (ValueError msg)
    | None => Raise (UnboundLocalError "response")
    end in
  let sync := Sync.get_all ok_server plain_session "v3" paged_kwargs empty_world in
  let async := await (Async.get_all ok_server (async_of plain_session) "v3"
                        paged_kwargs) empty_world in
  sync.1 = expected ∧ requests sync.2 = requests empty_world ∧
  async.1 = expected ∧ requests async.2 = requests empty_world.
Proof.
  apply (get_all_unknown_version ok_server plain_session "v3" paged_kwargs
           empty_world); discriminate.
Defined.

(** With both identifier pairs configured the failure is the
    [ValueError] of reconciliation: the claim of C10 fails at this
    input. *)
Lemma get_all_unknown_version_config_error :
  (Sync.get_all ok_server both_session "v3" ∅ empty_world).1
    = Raise (ValueError both_pairs_message) ∧
  (await (Async.get_all ok_server (async_of both_session) "v3" ∅) empty_world).1
    = Raise (ValueError both_pairs_message) ∧
  (Sync.get_all ok_server both_session "v3" ∅ empty_world).1
    ≠ Raise (UnboundLocalError "response").
Proof.
  assert (E : (Sync.get_all ok_server both_session "v3" ∅ empty_world).1
              = Raise (ValueError both_pairs_message)) by (vm_compute; reflexivity).
  split_and!; [exact E | vm_compute; reflexivity | rewrite E; discriminate].
Qed.

(** ** Requests issued by an operation *)

Lemma keeps_ret {A} (a : A) : keeps_requests (ret a).
Proof. done. Qed.

Lemma keeps_raise {A} e : keeps_requests (@raise A e).
Proof. done. Qed.

Lemma keeps_bind {A B} (c : M A) (k : A → M B) :
  keeps_requests c → (∀ a, keeps_requests (k a)) → keeps_requests (bind c k).
Proof.
  intros Hc Hk w. unfold bind. specialize (Hc w).
  destruct (c w) as [[a|e] w']; simpl in *; [| done].
  by rewrite Hk.
Qed.

Lemma keeps_read_dict l : keeps_requests (read_dict l).
Proof. intros w. unfold read_dict. by destruct (heap w !! l). Qed.

Lemma keeps_write_dict l d : keeps_requests (write_dict l d).
Proof. done. Qed.

Lemma keeps_new_dict d : keeps_requests (new_dict d).
Proof. done. Qed.

Lemma keeps_capture_client_event name : keeps_requests (capture_client_event name).
Proof. done. Qed.

Lemma keeps_raise_for_status r : keeps_requests (raise_for_status r).
Proof. intros w. unfold raise_for_status. by destruct (is_success r). Qed.

Lemma keeps_response_json r : keeps_requests (response_json r).
Proof. intros w. unfold response_json. by destruct (json_value r). Qed.

Lemma keeps_read_local name x : keeps_requests (read_local name x).
Proof. intros w. by destruct x. Qed.

Lemma keeps_subscript v k : keeps_requests (subscript v k).
Proof. intros w. unfold subscript. destruct v; try done. by destruct (assoc k kvs). Qed.

Lemma keeps_iterate v : keeps_requests (iterate v).
Proof. intros w. by destruct v. Qed.

Create HintDb py discriminated.
#[local] Hint Resolve keeps_ret keeps_raise keeps_bind keeps_read_dict keeps_write_dict
  keeps_new_dict keeps_capture_client_event keeps_raise_for_status
  keeps_response_json keeps_read_local keeps_subscript keeps_iterate : py.

Lemma keeps_dict_contains l k : keeps_requests (dict_contains l k).
Proof. unfold dict_contains. auto with py. Qed.

Lemma keeps_dict_delitem l k : keeps_requests (dict_delitem l k).
Proof.
  unfold dict_delitem. apply keeps_bind; [auto with py |].
  intros d. destruct (d !! k); auto with py.
Qed.

Lemma keeps_drop_metadata l : keeps_requests (drop_metadata l).
Proof.
  unfold drop_metadata. apply keeps_bind; [apply keeps_dict_contains |].
  intros []; [apply keeps_dict_delitem | auto with py].
Qed.

#[local] Hint Resolve keeps_dict_contains keeps_dict_delitem keeps_drop_metadata : py.

Lemma requests_bind_keeps {A B} (c : M A) (k : A → M B) w :
  (∀ a, keeps_requests (k a)) → requests (bind c k w).2 = requests (c w).2.
Proof.
  intros Hk. unfold bind. destruct (c w) as [[a|e] w']; simpl; [| done].
  apply Hk.
Qed.

Lemma requests_send srv r w : requests (send srv r w).2 = (requests w ++ [r])%list.
Proof. unfold send. by destruct (srv (requests w) r). Qed.

Lemma requests_api_error_handler {A} (func : M A) w :
  requests (api_error_handler func w).2 = requests (func w).2.
Proof. by rewrite api_error_handler_run. Qed.

(** What is left of an operation once its response is bound. *)
Lemma keeps_finish name kwargs (x : option Response) :
  keeps_requests (response <- read_local "response" x ;;
                  raise_for_status response ;;
                  drop_metadata kwargs ;;
                  capture_client_event name ;;
                  response_json response).
Proof. repeat (apply keeps_bind; [auto with py | intros ?]). auto with py. Qed.

Lemma dict_contains_run l d k w :
  heap w !! l = Some d →
  dict_contains l k w = (Ok (bool_decide (is_Some (d !! k))), w).
Proof. intros H. unfold dict_contains, read_dict, bind, ret. by rewrite H. Qed.

Lemma dict_pop_run l d k v w :
  heap w !! l = Some d → d !! k = Some v →
  dict_pop l k w = (Ok v, set_heap (<[l := delete k d]> (heap w)) w).
Proof.
  intros H Hk. unfold dict_pop, read_dict, write_dict, bind, ret.
  by rewrite H, Hk.
Qed.

Lemma read_dict_run l d w : heap w !! l = Some d → read_dict l w = (Ok d, w).
Proof. intros H. unfold read_dict. by rewrite H. Qed.

(** The synchronous [get_all] with version ["v2"], both [page] and
    [page_size] among the reconciled parameters: the two travel in the
    query string, the rest in the JSON body. *)
Lemma sync_get_all_v2_paged srv self kw w page page_size :
  config_error self = None →
  drop_none (inject self kw) !! "page" = Some page →
  drop_none (inject self kw) !! "page_size" = Some page_size →
  requests (Sync.get_all srv self "v2" kw w).2 =
    (requests w ++
    [ {| req_method := POST; req_url := "/v2/memories/";
         req_params := Some (<["page_size" := page_size]> (<["page" := page]> ∅));
         req_json := Some (delete "page_size"
                             (delete "page" (drop_none (inject self kw)))) |} ])%list.
Proof.
  intros Hc Hp Hs. unfold Sync.get_all.
  rewrite requests_api_error_handler. unfold Sync.get_all_body.
  rewrite prepare_call_kwargs, Hc. simpl.
  rewrite requests_bind_keeps by (intros; apply keeps_finish).
  set (h1 := <[fresh (dom (heap w)) := kw]> (heap w)).
  set (r := fresh (dom h1)).
  set (params := drop_none (inject self kw)) in *.
  erewrite bind_Ok; [| by apply dict_contains_run, lookup_insert_eq].
  rewrite Hp. simpl.
  erewrite bind_Ok; [| by apply dict_contains_run, lookup_insert_eq].
  rewrite Hs. simpl.
  erewrite bind_Ok; [| by eapply dict_pop_run; [apply lookup_insert_eq |]].
  erewrite bind_Ok;
    [| eapply dict_pop_run; [apply lookup_insert_eq | by rewrite lookup_delete_ne]].
  simpl. rewrite !insert_insert_eq.
  unfold bind at 1. simpl.
  assert (Hne : fresh (dom (<[r := delete "page_size" (delete "page" params)]>
                   (<[fresh (dom (heap w)) := inject self kw]> h1))) ≠ r).
  { intros E. pose proof (fresh_ref_unused (<[r := delete "page_size" (delete "page" params)]>
                   (<[fresh (dom (heap w)) := inject self kw]> h1))) as F.
    rewrite E, lookup_insert_eq in F. done. }
  erewrite bind_Ok;
    [| apply read_dict_run; simpl; rewrite lookup_insert_ne by done; apply lookup_insert_eq].
  erewrite bind_Ok; [| apply read_dict_run; simpl; apply lookup_insert_eq].
  rewrite requests_bind_keeps by auto with py.
  by rewrite requests_send.
Qed.

(** With at most one of the two present, everything travels in the JSON
    body and no query parameters are passed. *)
Lemma sync_get_all_v2_unpaged srv self kw w :
  config_error self = None →
  drop_none (inject self kw) !! "page" = None ∨
  drop_none (inject self kw) !! "page_size" = None →
  requests (Sync.get_all srv self "v2" kw w).2 =
    (requests w ++
    [ {| req_method := POST; req_url := "/v2/memories/";
         req_params := None;
         req_json := Some (drop_none (inject self kw)) |} ])%list.
Proof.
  intros Hc Hp. unfold Sync.get_all.
  rewrite requests_api_error_handler. unfold Sync.get_all_body.
  rewrite prepare_call_kwargs, Hc. simpl.
  rewrite requests_bind_keeps by (intros; apply keeps_finish).
  set (params := drop_none (inject self kw)) in *.
  erewrite bind_Ok; [| by apply dict_contains_run, lookup_insert_eq].
  assert (Hfin : ∀ w',
    heap w' !! fresh (dom (<[fresh (dom (heap w)) := kw]> (heap w))) = Some params →
    requests w' = requests w →
    requests ((body <- read_dict (fresh (dom (<[fresh (dom (heap w)) := kw]> (heap w)))) ;;
               r <- send srv {| req_method := POST; req_url := "/v2/memories/";
                                req_params := None; req_json := Some body |} ;;
               ret (Some r)) w').2 =
    (requests w ++
    [ {| req_method := POST; req_url := "/v2/memories/";
                       req_params := None; req_json := Some params |} ])%list).
  { intros w' Hw' Hq. erewrite bind_Ok; [| by apply read_dict_run].
    rewrite requests_bind_keeps by auto with py. by rewrite requests_send, Hq. }
  destruct (params !! "page") as [pg|] eqn:Epg; simpl.
  - destruct Hp as [Hp | Hp]; [done |].
    erewrite bind_Ok; [| by apply dict_contains_run, lookup_insert_eq].
    rewrite Hp. simpl. apply Hfin; [apply lookup_insert_eq | done].
  - unfold bind at 1. simpl. apply Hfin; [apply lookup_insert_eq | done].
Qed.

(** The asynchronous [get_all] with version ["v2"] passes no query
    parameters, whatever the reconciled parameters hold. *)
Lemma async_get_all_v2_body_only srv self kw w :
  config_error (sync_client self) = None →
  requests (await (Async.get_all srv self "v2" kw) w).2 =
    (requests w ++
    [ {| req_method := POST; req_url := "/v2/memories/";
         req_params := None;
         req_json := Some (drop_none (inject (sync_client self) kw)) |} ])%list.
Proof.
  intros Hc. unfold Async.get_all. rewrite await_decorated.
  unfold Async.get_all_body. rewrite prepare_call_kwargs, Hc. simpl.
  rewrite requests_bind_keeps by (intros; apply keeps_finish).
  erewrite bind_Ok; [| by apply read_dict_run, lookup_insert_eq].
  rewrite requests_bind_keeps by auto with py.
  by rewrite requests_send.
Qed.

(** C5 at [page=1, page_size=50, user_id="u1"]: the synchronous client
    sends the two pagination entries as query parameters and the rest as
    the JSON body; the asynchronous client sends all three in the JSON
    body and no query parameters. *)
Theorem get_all_v2_pagination_split :
  requests (Sync.get_all ok_server plain_session "v2" paged_kwargs empty_world).2 =
    [ {| req_method := POST; req_url := "/v2/memories/";
         req_params := Some (<["page_size" := VInt 50]> (<["page" := VInt 1]> ∅));
         req_json := Some {[ "user_id" := VStr "u1" ]} |} ] ∧
  requests (await (Async.get_all ok_server (async_of plain_session) "v2" paged_kwargs)
              empty_world).2 =
    [ {| req_method := POST; req_url := "/v2/memories/";
         req_params := None;
         req_json := Some paged_kwargs |} ].
Proof. split; vm_compute; reflexivity. Qed.

(** ** The error boundary *)

(** No [httpx] failure leaves a decorated synchronous operation. *)
Lemma api_error_handler_boundary {A} (func : M A) w e :
  (api_error_handler func w).1 = Raise e →
  (∀ r, e ≠ HTTPStatusError r) ∧ (∀ msg, e ≠ RequestError msg).
Proof.
  rewrite api_error_handler_run. simpl.
  destruct (func w).1 as [a|e']; [done |].
  intros [= <-]. by destruct e'.
Qed.

Lemma api_error_handler_status {A} (func : M A) w r :
  (func w).1 = Raise (HTTPStatusError r) →
  (api_error_handler func w).1 = Raise (APIError ("API request failed: " +:+ text r)).
Proof. rewrite api_error_handler_run. simpl. by intros ->. Qed.

Lemma api_error_handler_transport {A} (func : M A) w msg :
  (func w).1 = Raise (RequestError msg) →
  (api_error_handler func w).1 = Raise (APIError ("Request failed: " +:+ msg)).
Proof. rewrite api_error_handler_run. simpl. by intros ->. Qed.

(** C6 at [get("m1")] and [add("hi")] against a remote side that answers
    500, and one that cannot be reached: the synchronous client raises
    [APIError] with the body text or the failure message; awaiting the
    asynchronous client raises the [httpx] exception itself. *)
Theorem async_failures_escape_boundary :
  (Sync.get failing_server plain_session "m1" empty_world).1
    = Raise (APIError "API request failed: Internal Server Error") ∧
  (Sync.get unreachable_server plain_session "m1" empty_world).1
    = Raise (APIError "Request failed: connection refused") ∧
  (await (Async.get failing_server (async_of plain_session) "m1") empty_world).1
    = Raise (HTTPStatusError error_response) ∧
  (await (Async.get unreachable_server (async_of plain_session) "m1") empty_world).1
    = Raise (RequestError "connection refused") ∧
  (await (Async.add failing_server (async_of plain_session) (VStr "hi") ∅) empty_world).1
    = Raise (HTTPStatusError error_response).
Proof. split_and!; vm_compute; reflexivity. Qed.

(** ** Deleting the entities *)

Lemma async_delete_each srv py_str params items :
  Async.delete_each srv py_str params items = Sync.delete_each srv py_str params items.
Proof. induction items as [| item rest IH]; simpl; [done |]. by rewrite IH. Qed.

Lemma entity_delete_subscripts py_str ps item r :
  entity_delete py_str ps item = Some r →
  ∃ ty id, (∀ w, subscript item "type" w = (Ok ty, w)) ∧
           (∀ w, subscript item "id" w = (Ok id, w)) ∧
           r = Sync.entity_request py_str ty id ps.
Proof.
  destruct item as [| | | | |kvs]; try done. simpl.
  destruct (assoc "type" kvs) as [ty|] eqn:Et; [| done].
  destruct (assoc "id" kvs) as [id|] eqn:Ei; [| done].
  intros [= <-]. exists ty, id. unfold subscript.
  by split_and!.
Qed.

(** The loop stops at the first deletion that fails. *)
Lemma delete_each_short_circuit srv py_str params ps pre reqs :
  Forall2 (λ item r, entity_delete py_str ps item = Some r) pre reqs →
  ∀ ek post rk e w,
  heap w !! params = Some ps →
  entity_delete py_str ps ek = Some rk →
  all_succeed srv (requests w) reqs →
  failure srv (requests w ++ reqs) rk = Some e →
  Sync.delete_each srv py_str params (pre ++ ek :: post) w =
    (Raise e, {| heap := heap w;
                 requests := requests w ++ reqs ++ [rk];
                 events := events w |}).
Proof.
  induction 1 as [| item r pre reqs Hitem _ IH]; intros ek post rk e w Hps Hek Hall Hfail.
  - simpl in *. rewrite app_nil_r in Hfail.
    destruct (entity_delete_subscripts _ _ _ _ Hek) as (ty & id & Hty & Hid & ->).
    rewrite (bind_Ok _ _ _ _ _ (Hty w)), (bind_Ok _ _ _ _ _ (Hid w)).
    rewrite (bind_Ok _ _ _ _ _ (read_dict_run _ _ _ Hps)).
    unfold failure in Hfail. unfold bind at 1, send.
    destruct (srv (requests w) _) as [resp | msg].
    + unfold raise_for_status, bind.
      destruct (is_success resp); [done |]. by injection Hfail as <-.
    + by injection Hfail as <-.
  - simpl in Hall. destruct Hall as [(resp & Hresp & Hok) Hall].
    destruct (entity_delete_subscripts _ _ _ _ Hitem) as (ty & id & Hty & Hid & ->).
    simpl.
    rewrite (bind_Ok _ _ _ _ _ (Hty w)), (bind_Ok _ _ _ _ _ (Hid w)).
    rewrite (bind_Ok _ _ _ _ _ (read_dict_run _ _ _ Hps)).
    unfold bind at 1, send. rewrite Hresp.
    unfold bind at 1, raise_for_status. rewrite Hok. simpl.
    rewrite (IH ek post rk e); simpl; try done.
    + by rewrite <- !app_assoc.
    + by rewrite <- app_assoc.
Qed.

Lemma prepare_params_None_run self w :
  config_error self = None →
  ∃ r w', _prepare_params self None w = (Ok r, w') ∧
          heap w' !! r = Some (drop_none (inject self ∅)) ∧
          requests w' = requests w ∧ events w' = events w ∧
          (∀ l, is_Some (heap w !! l) → heap w' !! l = heap w !! l).
Proof.
  intros Hc. rewrite prepare_params_None. simpl.
  erewrite prepare_params_Some by apply lookup_insert_eq. rewrite Hc. simpl.
  eexists _, _. split; [reflexivity |]. simpl. split_and!; try done.
  - apply lookup_insert_eq.
  - intros l [d Hd]. rewrite insert_insert_eq.
    assert (Hl : l ≠ fresh (dom (heap w))).
    { intros ->. by rewrite fresh_ref_unused in Hd. }
    rewrite lookup_insert_ne, lookup_insert_ne; auto.
    intros E. pose proof (fresh_ref_unused (<[fresh (dom (heap w)) := ∅]> (heap w))) as F.
    rewrite E, lookup_insert_ne, Hd in F; done.
Qed.

Ltac run_listing srv self w Hc Hsrv Hok Hjson :=
  destruct (prepare_params_None_run self w Hc) as (r & w1 & Hrun & Hr & Hq & He & Hframe);
  rewrite (bind_Ok _ _ _ _ _ Hrun);
  rewrite (bind_Ok _ _ _ _ _ (read_dict_run _ _ _ Hr));
  unfold bind at 1, send; rewrite Hq, Hsrv;
  unfold bind at 1, raise_for_status; rewrite Hok;
  unfold bind at 1; simpl;
  unfold response_json; rewrite Hjson;
  eexists; split; [reflexivity |]; simpl; rewrite ?Hq, ?He; split_and!; done.

Lemma sync_users_body_run srv self w resp entities :
  config_error self = None →
  srv (requests w) (listing_request (drop_none (inject self ∅))) = Responded resp →
  is_success resp = true → json_value resp = Some entities →
  ∃ w', Sync.users_body srv self w = (Ok entities, w') ∧
        requests w' = (requests w ++ [listing_request (drop_none (inject self ∅))])%list ∧
        events w' = (events w ++ ["client.users"])%list ∧
        (∀ l, is_Some (heap w !! l) → heap w' !! l = heap w !! l).
Proof.
  intros Hc Hsrv Hok Hjson. unfold Sync.users_body, listing_request in *.
  run_listing srv self w Hc Hsrv Hok Hjson.
Qed.

Lemma async_users_body_run srv self w resp entities :
  config_error self = None →
  srv (requests w) (listing_request (drop_none (inject self ∅))) = Responded resp →
  is_success resp = true → json_value resp = Some entities →
  ∃ w', Async.users_body srv (async_of self) w = (Ok entities, w') ∧
        requests w' = (requests w ++ [listing_request (drop_none (inject self ∅))])%list ∧
        events w' = (events w ++ ["async_client.users"])%list ∧
        (∀ l, is_Some (heap w !! l) → heap w' !! l = heap w !! l).
Proof.
  intros Hc Hsrv Hok Hjson. unfold Async.users_body, listing_request in *. simpl.
  run_listing srv self w Hc Hsrv Hok Hjson.
Qed.

(** C8: [delete_users] over a listing of [N] entities whose [k]-th
    deletion fails ([pre] are the [k-1] entities before it, [post] the
    [N-k] after it). After the listing request the log holds the
    deletions of [pre], each answered 2xx, then the failing deletion,
    and nothing for [post]; the call raises at once: the synchronous
    client the failure as translated by its error boundary, the
    asynchronous client the failure itself; the final telemetry event is
    not emitted. *)
Theorem delete_users_short_circuit srv py_str self w listing kvs pre ek post reqs rk e :
  let ps := drop_none (inject self ∅) in
  let done_log := (requests w ++ [listing_request ps])%list in
  config_error self = None →
  srv (requests w) (listing_request ps) = Responded listing →
  is_success listing = true →
  json_value listing = Some (VDict kvs) →
  assoc "results" kvs = Some (VList (pre ++ ek :: post)) →
  Forall2 (λ item r, entity_delete py_str ps item = Some r) pre reqs →
  entity_delete py_str ps ek = Some rk →
  all_succeed srv done_log reqs →
  failure srv (done_log ++ reqs) rk = Some e →
  let sync := Sync.delete_users srv py_str self w in
  let async := await (Async.delete_users srv py_str (async_of self)) w in
  sync.1 = Raise (except_clauses e) ∧
  requests sync.2 = (done_log ++ reqs ++ [rk])%list ∧
  events sync.2 = (events w ++ ["client.users"])%list ∧
  async.1 = Raise e ∧
  requests async.2 = (done_log ++ reqs ++ [rk])%list ∧
  events async.2 = (events w ++ ["async_client.users"])%list ∧
  length reqs = length pre.
Proof.
  intros ps done_log Hc Hsrv Hok Hjson Hres Hpre Hek Hall Hfail. simpl.
  destruct (prepare_params_None_run self w Hc) as (r & w1 & Hrun & Hr & Hq & He & Hframe).
  assert (Hsync : ∃ w', Sync.delete_users_body srv py_str self w = (Raise e, w') ∧
            requests w' = (done_log ++ reqs ++ [rk])%list ∧
            events w' = (events w ++ ["client.users"])%list).
  { unfold Sync.delete_users_body. rewrite (bind_Ok _ _ _ _ _ Hrun).
    destruct (sync_users_body_run srv self w1 listing (VDict kvs)) as (w2 & Hu & Hq2 & He2 & Hf2);
      [by rewrite ?Hq .. |].
    unfold Sync.users. unfold bind at 1.
    rewrite api_error_handler_run, Hu. simpl. rewrite Hres.
    unfold bind at 1. simpl. unfold bind at 1. simpl.
    erewrite bind_Raise.
    2:{ eapply (delete_each_short_circuit srv py_str r ps pre reqs Hpre ek post rk e w2);
        [ by rewrite Hf2 | done | by rewrite Hq2, Hq | by rewrite Hq2, Hq ]. }
    eexists. split; [reflexivity |]. simpl. by rewrite Hq2, He2, Hq, He. }
  assert (Hasync : ∃ w', Async.delete_users_body srv py_str (async_of self) w = (Raise e, w') ∧
            requests w' = (done_log ++ reqs ++ [rk])%list ∧
            events w' = (events w ++ ["async_client.users"])%list).
  { unfold Async.delete_users_body. simpl. rewrite (bind_Ok _ _ _ _ _ Hrun).
    destruct (async_users_body_run srv self w1 listing (VDict kvs)) as (w2 & Hu & Hq2 & He2 & Hf2);
      [by rewrite ?Hq .. |].
    unfold Async.users. unfold bind at 1.
    rewrite await_decorated, Hu. simpl. rewrite Hres.
    unfold bind at 1. simpl. unfold bind at 1. simpl.
    rewrite async_delete_each.
    erewrite bind_Raise.
    2:{ eapply (delete_each_short_circuit srv py_str r ps pre reqs Hpre ek post rk e w2);
        [ by rewrite Hf2 | done | by rewrite Hq2, Hq | by rewrite Hq2, Hq ]. }
    eexists. split; [reflexivity |]. simpl. by rewrite Hq2, He2, Hq, He. }
  destruct Hsync as (ws & Hs & Hsq & Hse), Hasync as (wa & Ha & Haq & Hae).
  unfold Sync.delete_users, Async.delete_users.
  rewrite await_decorated, api_error_handler_run, Hs, Ha. simpl.
  split_and!; try done. symmetry. by eapply Forall2_length.
Qed.

Lemma delete_users_short_circuit_witness :
  let srv := refuses_second in
  let py_str : value → string := λ _, "" in
  let ps := drop_none (inject plain_session ∅) in
  let rk := Sync.entity_request py_str (VStr "agent") (VStr "bot") ps in
  let reqs := [Sync.entity_request py_str (VStr "user") (VStr "alice") ps] in
  let e := HTTPStatusError error_response in
  let done_log := (requests empty_world ++ [listing_request ps])%list in
  let sync := Sync.delete_users srv py_str plain_session empty_world in
  let async := await (Async.delete_users srv py_str (async_of plain_session)) empty_world in
  sync.1 = Raise (except_clauses e) ∧
  requests sync.2 = (done_log ++ reqs ++ [rk])%list ∧
  events sync.2 = (events empty_world ++ ["client.users"])%list ∧
  async.1 = Raise e ∧
  requests async.2 = (done_log ++ reqs ++ [rk])%list ∧
  events async.2 = (events empty_world ++ ["async_client.users"])%list ∧
  length reqs = length [entity "user" "alice"].
Proof.
  intros srv py_str ps rk reqs e done_log.
  apply (delete_users_short_circuit srv py_str plain_session empty_world
           (listing_of three_entities) [("results", VList three_entities)]
           [entity "user" "alice"] (entity "agent" "bot") [entity "user" "carol"]
           reqs rk e).
  - reflexivity.
  - reflexivity.
  - reflexivity.
  - reflexivity.
  - reflexivity.
  - repeat constructor.
  - reflexivity.
  - simpl. split; [| exact I]. exists ok_response. split; reflexivity.
  - reflexivity.
Defined.

(** * Further properties of the client *)

(** ** One exchange *)

Lemma observes_ret {A} (a : A) w : observes (ret a w) w (Ok a) [] [].
Proof. unfold observes. simpl. by rewrite !app_nil_r. Qed.

Lemma observes_api_error_handler {A} (func : M A) w res reqs evs :
  observes (func w) w res reqs evs →
  observes (api_error_handler func w) w (translated res) reqs evs.
Proof.
  unfold observes. rewrite api_error_handler_run. simpl.
  intros (-> & ? & ?). done.
Qed.

Lemma observes_await {A} (body : M A) w res reqs evs :
  observes (body w) w res reqs evs →
  observes (await (api_error_handler (async_def body)) w) w res reqs evs.
Proof. by rewrite await_decorated. Qed.

(** From the request to the return statement. *)
Lemma finish_run srv r name w :
  let out := (response <- send srv r ;; raise_for_status response ;;
              capture_client_event name ;; response_json response) w in
  observes out w (exchange srv (requests w) r) [r]
    (if accepted srv (requests w) r then [name] else []) ∧
  heap out.2 = heap w.
Proof.
  unfold observes, exchange, accepted, bind, send, raise_for_status,
    capture_client_event, response_json, ret, raise. simpl.
  destruct (srv (requests w) r) as [resp | msg]; simpl.
  - destruct (is_success resp); simpl; [| by rewrite app_nil_r].
    by destruct (json_value resp).
  - by rewrite app_nil_r.
Qed.

(** An operation without keyword arguments: reconcile, one request,
    telemetry, decoded body. *)
Lemma simple_call_run srv self (mk : dict → Request) name w :
  let out := (params <- _prepare_params self None ;;
              ps <- read_dict params ;;
              response <- send srv (mk ps) ;;
              raise_for_status response ;;
              capture_client_event name ;;
              response_json response) w in
  match config_error self with
  | Some msg => observes out w (Raise (ValueError msg)) [] []
  | None =>
      let r := mk (reconciled self ∅) in
      observes out w (exchange srv (requests w) r) [r]
        (if accepted srv (requests w) r then [name] else [])
  end.
Proof.
  simpl. destruct (config_error self) as [msg|] eqn:Hc.
  - destruct (prepare_params_error self None w msg Hc I) as (w' & Hrun & _ & Hq & He).
    rewrite (bind_Raise _ _ _ _ _ Hrun). unfold observes. simpl.
    by rewrite Hq, He, !app_nil_r.
  - destruct (prepare_params_None_run self w Hc) as (r & w1 & Hrun & Hr & Hq & He & _).
    rewrite (bind_Ok _ _ _ _ _ Hrun), (bind_Ok _ _ _ _ _ (read_dict_run _ _ _ Hr)).
    destruct (finish_run srv (mk (drop_none (inject self ∅))) name w1) as [Hobs _].
    unfold observes in *. by rewrite <- Hq, <- He.
Qed.

(** An operation with keyword arguments. *)
Lemma kwargs_call_run srv self kw (mk : dict → Request) name w :
  let out := (kwargs <- new_dict kw ;;
              params <- _prepare_params self (Some kwargs) ;;
              ps <- read_dict params ;;
              response <- send srv (mk ps) ;;
              raise_for_status response ;;
              capture_client_event name ;;
              response_json response) w in
  match config_error self with
  | Some msg => observes out w (Raise (ValueError msg)) [] []
  | None =>
      let r := mk (reconciled self kw) in
      observes out w (exchange srv (requests w) r) [r]
        (if accepted srv (requests w) r then [name] else [])
  end.
Proof.
  simpl.
  rewrite (prepare_call_kwargs self kw
             (λ _ params, ps <- read_dict params ;; response <- send srv (mk ps) ;;
                          raise_for_status response ;; capture_client_event name ;;
                          response_json response) w).
  simpl. destruct (config_error self) as [msg|].
  - unfold observes. simpl. by rewrite !app_nil_r.
  - erewrite bind_Ok; [| by apply read_dict_run, lookup_insert_eq].
    by destruct (finish_run srv (mk (drop_none (inject self kw))) name
      (set_heap
         (<[fresh (dom (<[fresh (dom (heap w)):=kw]> (heap w))):=
            drop_none (inject self kw)]>
            (<[fresh (dom (heap w)):=inject self kw]>
               (<[fresh (dom (heap w)):=kw]> (heap w)))) w)) as [Hobs _].
Qed.

(** ** Operations on one memory and on the entities *)

(** X1: on a session that reconciliation accepts, the synchronous [get],
    [delete], [history] and [users] issue exactly one request, with the
    reconciled session identifiers as query parameters and no body;
    they return the decoded body of a 2xx response and raise otherwise,
    the two [httpx] failures as [APIError]; the telemetry event is
    emitted exactly when the response is 2xx, also when its body does
    not decode. *)
Theorem sync_simple_operations srv self memory_id w :
  config_error self = None →
  let ps := reconciled self ∅ in
  let sees (out : Result value * World) (r : Request) (name : string) :=
    observes out w (translated (exchange srv (requests w) r)) [r]
      (if accepted srv (requests w) r then [name] else []) in
  sees (Sync.get srv self memory_id w)
    (request GET ("/v1/memories/" +:+ memory_id +:+ "/") (Some ps) None)
    "client.get" ∧
  sees (SyncRest.delete srv self memory_id w)
    (request DELETE ("/v1/memories/" +:+ memory_id +:+ "/") (Some ps) None)
    "client.delete" ∧
  sees (SyncRest.history srv self memory_id w)
    (request GET ("/v1/memories/" +:+ memory_id +:+ "/history/") (Some ps) None)
    "client.history" ∧
  sees (Sync.users srv self w)
    (request GET "/v1/entities/" (Some ps) None) "client.users".
Proof.
  intros Hc ps sees. subst sees ps. simpl.
  split_and!; apply observes_api_error_handler.
  - pose proof (simple_call_run srv self
      (λ ps, request GET ("/v1/memories/" +:+ memory_id +:+ "/") (Some ps) None)
      "client.get" w) as H. simpl in H. by rewrite Hc in H.
  - pose proof (simple_call_run srv self
      (λ ps, request DELETE ("/v1/memories/" +:+ memory_id +:+ "/") (Some ps) None)
      "client.delete" w) as H. simpl in H. by rewrite Hc in H.
  - pose proof (simple_call_run srv self
      (λ ps, request GET ("/v1/memories/" +:+ memory_id +:+ "/history/") (Some ps) None)
      "client.history" w) as H. simpl in H. by rewrite Hc in H.
  - pose proof (simple_call_run srv self
      (λ ps, request GET "/v1/entities/" (Some ps) None)
      "client.users" w) as H. simpl in H. by rewrite Hc in H.
Qed.

Lemma sync_simple_operations_witness :
  let srv := ok_server in
  let self := id_session in
  let w := empty_world in
  let ps := reconciled self ∅ in
  let sees (out : Result value * World) (r : Request) (name : string) :=
    observes out w (translated (exchange srv (requests w) r)) [r]
      (if accepted srv (requests w) r then [name] else []) in
  sees (Sync.get srv self "m1" w)
    (request GET ("/v1/memories/" +:+ "m1" +:+ "/") (Some ps) None)
    "client.get" ∧
  sees (SyncRest.delete srv self "m1" w)
    (request DELETE ("/v1/memories/" +:+ "m1" +:+ "/") (Some ps) None)
    "client.delete" ∧
  sees (SyncRest.history srv self "m1" w)
    (request GET ("/v1/memories/" +:+ "m1" +:+ "/history/") (Some ps) None)
    "client.history" ∧
  sees (Sync.users srv self w)
    (request GET "/v1/entities/" (Some ps) None) "client.users".
Proof.
  apply (sync_simple_operations ok_server id_session "m1" empty_world). reflexivity.
Defined.

(** X2: the asynchronous [get], [delete], [history], [users] and
    [update], once awaited, issue the same single request as their
    synchronous versions and emit their event on a 2xx response, but
    every failure reaches the caller as it was raised: nothing is
    turned into [APIError]. *)
Theorem async_simple_operations srv self memory_id data w :
  config_error (sync_client self) = None →
  let ps := reconciled (sync_client self) ∅ in
  let sees (out : Result value * World) (r : Request) (name : string) :=
    observes out w (exchange srv (requests w) r) [r]
      (if accepted srv (requests w) r then [name] else []) in
  sees (await (Async.get srv self memory_id) w)
    (request GET ("/v1/memories/" +:+ memory_id +:+ "/") (Some ps) None)
    "async_client.get" ∧
  sees (await (AsyncRest.delete srv self memory_id) w)
    (request DELETE ("/v1/memories/" +:+ memory_id +:+ "/") (Some ps) None)
    "async_client.delete" ∧
  sees (await (AsyncRest.history srv self memory_id) w)
    (request GET ("/v1/memories/" +:+ memory_id +:+ "/history/") (Some ps) None)
    "async_client.history" ∧
  sees (await (Async.users srv self) w)
    (request GET "/v1/entities/" (Some ps) None) "async_client.users" ∧
  sees (await (AsyncRest.update srv self memory_id data) w)
    (request PUT ("/v1/memories/" +:+ memory_id +:+ "/") (Some ps)
       (Some {[ "text" := VStr data ]}))
    "async_client.update".
Proof.
  intros Hc ps sees. subst sees ps. simpl.
  split_and!; apply observes_await.
  - pose proof (simple_call_run srv (sync_client self)
      (λ ps, request GET ("/v1/memories/" +:+ memory_id +:+ "/") (Some ps) None)
      "async_client.get" w) as H. simpl in H. by rewrite Hc in H.
  - pose proof (simple_call_run srv (sync_client self)
      (λ ps, request DELETE ("/v1/memories/" +:+ memory_id +:+ "/") (Some ps) None)
      "async_client.delete" w) as H. simpl in H. by rewrite Hc in H.
  - pose proof (simple_call_run srv (sync_client self)
      (λ ps, request GET ("/v1/memories/" +:+ memory_id +:+ "/history/") (Some ps) None)
      "async_client.history" w) as H. simpl in H. by rewrite Hc in H.
  - pose proof (simple_call_run srv (sync_client self)
      (λ ps, request GET "/v1/entities/" (Some ps) None)
      "async_client.users" w) as H. simpl in H. by rewrite Hc in H.
  - pose proof (simple_call_run srv (sync_client self)
      (λ ps, request PUT ("/v1/memories/" +:+ memory_id +:+ "/") (Some ps)
               (Some {[ "text" := VStr data ]}))
      "async_client.update" w) as H. simpl in H. by rewrite Hc in H.
Qed.

Lemma async_simple_operations_witness :
  let srv := failing_server in
  let self := async_of id_session in
  let w := empty_world in
  let ps := reconciled (sync_client self) ∅ in
  let sees (out : Result value * World) (r : Request) (name : string) :=
    observes out w (exchange srv (requests w) r) [r]
      (if accepted srv (requests w) r then [name] else []) in
  sees (await (Async.get srv self "m1") w)
    (request GET ("/v1/memories/" +:+ "m1" +:+ "/") (Some ps) None)
    "async_client.get" ∧
  sees (await (AsyncRest.delete srv self "m1") w)
    (request DELETE ("/v1/memories/" +:+ "m1" +:+ "/") (Some ps) None)
    "async_client.delete" ∧
  sees (await (AsyncRest.history srv self "m1") w)
    (request GET ("/v1/memories/" +:+ "m1" +:+ "/history/") (Some ps) None)
    "async_client.history" ∧
  sees (await (Async.users srv self) w)
    (request GET "/v1/entities/" (Some ps) None) "async_client.users" ∧
  sees (await (AsyncRest.update srv self "m1" "text") w)
    (request PUT ("/v1/memories/" +:+ "m1" +:+ "/") (Some ps)
       (Some {[ "text" := VStr "text" ]}))
    "async_client.update".
Proof.
  apply (async_simple_operations failing_server (async_of id_session) "m1" "text"
           empty_world). reflexivity.
Defined.

(** ** More on reconciliation *)

Lemma config_error_names self :
  truthy (org_id self) = false → truthy (project_id self) = false →
  truthy (organization self) = true → truthy (project self) = true →
  config_error self = None.
Proof. unfold config_error. by intros -> -> -> ->. Qed.

(** X3: a session whose legacy org name and project name are both set
    and whose IDs are unset returns a mapping that binds ["org_name"]
    and ["project_name"] to the session's names, whatever the caller had
    put there; its other entries are exactly the non-null entries of
    the input, so no ["org_id"] or ["project_id"] is added. *)
Theorem prepare_params_injects_names self l m w n pn :
  organization self = Some n → truthy (organization self) = true →
  project self = Some pn → truthy (project self) = true →
  truthy (org_id self) = false → truthy (project_id self) = false →
  heap w !! l = Some m →
  ∃ r w' out,
    _prepare_params self (Some l) w = (Ok r, w') ∧
    heap w' !! r = Some out ∧
    out !! "org_name" = Some (VStr n) ∧
    out !! "project_name" = Some (VStr pn) ∧
    (∀ k v, k ≠ "org_name" → k ≠ "project_name" →
       (out !! k = Some v ↔ m !! k = Some v ∧ v ≠ VNone)).
Proof.
  intros Hn Tn Hp Tp To Tpr Hl.
  rewrite (prepare_params_Some _ _ _ _ Hl), config_error_names by done.
  simpl. eexists _, _, _. split; [reflexivity |]. simpl.
  split; [apply lookup_insert_eq |].
  unfold inject. rewrite To, Tp, Tn, Hn, Hp. simpl.
  split_and!.
  - apply drop_none_lookup. split; [| done].
    rewrite lookup_insert_ne by done. apply lookup_insert_eq.
  - apply drop_none_lookup. split; [| done]. apply lookup_insert_eq.
  - intros k v H1 H2. rewrite drop_none_lookup.
    by rewrite !lookup_insert_ne.
Qed.

Lemma prepare_params_injects_names_witness :
  ∃ r w' out,
    _prepare_params name_session (Some 0%nat) (world_with conflicting_kwargs) = (Ok r, w') ∧
    heap w' !! r = Some out ∧
    out !! "org_name" = Some (VStr "acme") ∧
    out !! "project_name" = Some (VStr "memo") ∧
    (∀ k v, k ≠ "org_name" → k ≠ "project_name" →
       (out !! k = Some v ↔ conflicting_kwargs !! k = Some v ∧ v ≠ VNone)).
Proof.
  apply (prepare_params_injects_names name_session 0%nat conflicting_kwargs
           (world_with conflicting_kwargs) "acme" "memo"); reflexivity.
Defined.

(** X4: with the ID pair set and the names unset, reconciliation adds
    nothing but the two identifiers: under every other key the returned
    mapping has exactly the non-null entries of the input, and called
    without a mapping it returns exactly the two identifiers. *)
Theorem prepare_params_ids_only self l m w o p :
  org_id self = Some o → truthy (org_id self) = true →
  project_id self = Some p → truthy (project_id self) = true →
  truthy (organization self) = false → truthy (project self) = false →
  heap w !! l = Some m →
  (∃ r w' out,
     _prepare_params self (Some l) w = (Ok r, w') ∧
     heap w' !! r = Some out ∧
     (∀ k v, k ≠ "org_id" → k ≠ "project_id" →
        (out !! k = Some v ↔ m !! k = Some v ∧ v ≠ VNone))) ∧
  (∃ r w',
     _prepare_params self None w = (Ok r, w') ∧
     heap w' !! r = Some (<["project_id" := VStr p]> {[ "org_id" := VStr o ]})).
Proof.
  intros Ho To Hp Tp Tn1 Tn2 Hl.
  assert (Hc : config_error self = None) by by apply config_error_ids.
  assert (Hinj : ∀ d, inject self d = <["project_id" := VStr p]> (<["org_id" := VStr o]> d)).
  { intros d. unfold inject. by rewrite To, Tp, Tn1, Ho, Hp. }
  split.
  - rewrite (prepare_params_Some _ _ _ _ Hl), Hc. simpl.
    eexists _, _, _. split; [reflexivity |]. simpl.
    split; [apply lookup_insert_eq |].
    intros k v H1 H2. rewrite drop_none_lookup, Hinj.
    by rewrite !lookup_insert_ne.
  - destruct (prepare_params_None_run self w Hc) as (r & w' & Hrun & Hr & _).
    exists r, w'. split; [done |]. rewrite Hr, Hinj. reflexivity.
Qed.

Lemma prepare_params_ids_only_witness :
  (∃ r w' out,
     _prepare_params id_session (Some 0%nat) (world_with conflicting_kwargs) = (Ok r, w') ∧
     heap w' !! r = Some out ∧
     (∀ k v, k ≠ "org_id" → k ≠ "project_id" →
        (out !! k = Some v ↔ conflicting_kwargs !! k = Some v ∧ v ≠ VNone))) ∧
  (∃ r w',
     _prepare_params id_session None (world_with conflicting_kwargs) = (Ok r, w') ∧
     heap w' !! r = Some (<["project_id" := VStr "p1"]> {[ "org_id" := VStr "o1" ]})).
Proof.
  apply (prepare_params_ids_only id_session 0%nat conflicting_kwargs
           (world_with conflicting_kwargs) "o1" "p1"); reflexivity.
Defined.

(** ** A session that reconciliation rejects *)

Lemma refused_handler {A} (func : M A) w msg :
  refused (func w) w msg → refused (api_error_handler func w) w msg.
Proof.
  unfold refused. rewrite api_error_handler_run. simpl. by intros [-> ?].
Qed.

Lemma refused_await {A} (body : M A) w msg :
  refused (body w) w msg →
  refused (await (api_error_handler (async_def body)) w) w msg.
Proof. by rewrite await_decorated. Qed.

Lemma simple_refused {B} self (k : ref → M B) w msg :
  config_error self = Some msg →
  refused ((params <- _prepare_params self None ;; k params) w) w msg.
Proof.
  intros Hc.
  destruct (prepare_params_error self None w msg Hc I) as (w' & Hrun & _ & Hq & _).
  by rewrite (bind_Raise _ _ _ _ _ Hrun).
Qed.

Lemma kwargs_refused {B} self kw (k : ref → ref → M B) w msg :
  config_error self = Some msg →
  refused ((kwargs <- new_dict kw ;;
            params <- _prepare_params self (Some kwargs) ;;
            k kwargs params) w) w msg.
Proof. intros Hc. rewrite prepare_call_kwargs. simpl. by rewrite Hc. Qed.

Lemma search_refused {B} self kw d (k : ref → ref → ref → M B) w msg :
  config_error self = Some msg →
  refused ((kwargs <- new_dict kw ;;
            payload <- new_dict d ;;
            params <- _prepare_params self (Some kwargs) ;;
            k kwargs payload params) w) w msg.
Proof.
  intros Hc. unfold bind at 1. simpl. unfold bind at 1. simpl.
  set (w2 := set_heap _ _).
  assert (Hl : heap w2 !! fresh (dom (heap w)) = Some kw).
  { subst w2. simpl. rewrite lookup_insert_ne; [apply lookup_insert_eq |].
    intros E.
    pose proof (fresh_ref_unused (<[fresh (dom (heap w)) := kw]> (heap w))) as F.
    by rewrite E, lookup_insert_eq in F. }
  pose proof (prepare_params_Some self _ _ _ Hl) as Hrun. rewrite Hc in Hrun.
  by rewrite (bind_Raise _ _ _ _ _ Hrun).
Qed.

(** X5: on a session that reconciliation rejects, each synchronous
    operation that reconciles its parameters raises the [ValueError] of
    reconciliation, unchanged by the error boundary, and issues no
    request: [add], [get], [get_all] (any version), [search], [update],
    [delete], [delete_all], [history], [users], [delete_users], [reset],
    [create_memory_export] and [get_memory_export]. *)
Theorem sync_operations_refused srv py_str self msg w
    (messages : value) (version query memory_id data schema : string) (kw : dict) :
  config_error self = Some msg →
  refused (Sync.add srv self messages kw w) w msg ∧
  refused (Sync.get srv self memory_id w) w msg ∧
  refused (Sync.get_all srv self version kw w) w msg ∧
  refused (SyncRest.search srv self query version kw w) w msg ∧
  refused (SyncRest.update srv self memory_id data w) w msg ∧
  refused (SyncRest.delete srv self memory_id w) w msg ∧
  refused (SyncRest.delete_all srv self kw w) w msg ∧
  refused (SyncRest.history srv self memory_id w) w msg ∧
  refused (Sync.users srv self w) w msg ∧
  refused (Sync.delete_users srv py_str self w) w msg ∧
  refused (SyncRest.reset srv py_str self w) w msg ∧
  refused (SyncRest.create_memory_export srv self schema kw w) w msg ∧
  refused (SyncRest.get_memory_export srv self kw w) w msg.
Proof.
  intros Hc.
  assert (Hdel : refused (Sync.delete_users srv py_str self w) w msg)
    by by apply refused_handler, simple_refused.
  split_and!; try done; apply refused_handler;
    try (by apply simple_refused); try (by apply kwargs_refused).
  - by apply search_refused.
  - unfold SyncRest.update_body.
    pose proof (simple_refused self
      (λ params, ps <- read_dict params ;;
         response <- send srv {| req_method := PUT;
                                 req_url := "/v1/memories/" +:+ memory_id +:+ "/";
                                 req_params := Some ps;
                                 req_json := Some {[ "text" := VStr data ]} |} ;;
         raise_for_status response ;; response_json response)
      {| heap := heap w; requests := requests w;
         events := (events w ++ ["client.update"])%list |} msg Hc) as H.
    exact H.
  - unfold SyncRest.reset_body. destruct Hdel as [Hr Hq]. unfold refused, bind.
    destruct (Sync.delete_users srv py_str self w) as [[a|e] w']; simpl in *; [done |].
    by rewrite Hr.
Qed.

Lemma sync_operations_refused_witness :
  let srv := ok_server in
  let py_str : value → string := λ _, "" in
  let self := both_session in
  let msg := both_pairs_message in
  let w := empty_world in
  let kw := paged_kwargs in
  refused (Sync.add srv self (VStr "hi") kw w) w msg ∧
  refused (Sync.get srv self "m1" w) w msg ∧
  refused (Sync.get_all srv self "v2" kw w) w msg ∧
  refused (SyncRest.search srv self "tea" "v2" kw w) w msg ∧
  refused (SyncRest.update srv self "m1" "text" w) w msg ∧
  refused (SyncRest.delete srv self "m1" w) w msg ∧
  refused (SyncRest.delete_all srv self kw w) w msg ∧
  refused (SyncRest.history srv self "m1" w) w msg ∧
  refused (Sync.users srv self w) w msg ∧
  refused (Sync.delete_users srv py_str self w) w msg ∧
  refused (SyncRest.reset srv py_str self w) w msg ∧
  refused (SyncRest.create_memory_export srv self "{}" kw w) w msg ∧
  refused (SyncRest.get_memory_export srv self kw w) w msg.
Proof.
  apply (sync_operations_refused ok_server (λ _, "") both_session both_pairs_message
           empty_world (VStr "hi") "v2" "tea" "m1" "text" "{}" paged_kwargs).
  reflexivity.
Defined.

(** ** Batch operations and [update] *)

(** X6: [batch_update] and [batch_delete] never reconcile: for every
    session, also one that reconciliation rejects, each issues exactly
    one request to [/v1/batch/] with the body [{memories: ...}] and no
    query parameters, so that no org or project identifier is sent;
    the synchronous versions pass failures through the error boundary,
    the asynchronous ones raise them as they are. *)
Theorem batch_operations_unscoped srv self memories w :
  let put := request PUT "/v1/batch/" None (Some {[ "memories" := memories ]}) in
  let del := request DELETE "/v1/batch/" None (Some {[ "memories" := memories ]}) in
  observes (SyncRest.batch_update srv self memories w) w
    (translated (exchange srv (requests w) put)) [put]
    (if accepted srv (requests w) put then ["client.batch_update"] else []) ∧
  observes (SyncRest.batch_delete srv self memories w) w
    (translated (exchange srv (requests w) del)) [del]
    (if accepted srv (requests w) del then ["client.batch_delete"] else []) ∧
  observes (await (AsyncRest.batch_update srv (async_of self) memories) w) w
    (exchange srv (requests w) put) [put]
    (if accepted srv (requests w) put then ["async_client.batch_update"] else []) ∧
  observes (await (AsyncRest.batch_delete srv (async_of self) memories) w) w
    (exchange srv (requests w) del) [del]
    (if accepted srv (requests w) del then ["async_client.batch_delete"] else []).
Proof.
  simpl. split_and!.
  - apply observes_api_error_handler, finish_run.
  - apply observes_api_error_handler, finish_run.
  - apply observes_await, finish_run.
  - apply observes_await, finish_run.
Qed.

Lemma exchange_run srv r w :
  let out := (response <- send srv r ;; raise_for_status response ;;
              response_json response) w in
  observes out w (exchange srv (requests w) r) [r] [].
Proof.
  unfold observes, exchange, bind, send, raise_for_status, response_json, ret, raise.
  simpl. rewrite app_nil_r.
  destruct (srv (requests w) r) as [resp | msg]; simpl; [| done].
  destruct (is_success resp); simpl; [| done].
  by destruct (json_value resp).
Qed.

(** X7: the synchronous [update] emits its telemetry event before
    anything else: the event is recorded on every call, also when
    reconciliation rejects the session or the request fails. Otherwise
    it behaves as the other operations on one memory: one [PUT] with
    the body [{text: data}] and the reconciled identifiers as query
    parameters. *)
Theorem sync_update_run srv self memory_id data w :
  let out := SyncRest.update srv self memory_id data w in
  let r := request PUT ("/v1/memories/" +:+ memory_id +:+ "/")
             (Some (reconciled self ∅)) (Some {[ "text" := VStr data ]}) in
  events out.2 = (events w ++ ["client.update"])%list ∧
  match config_error self with
  | Some msg => refused out w msg
  | None => out.1 = translated (exchange srv (requests w) r) ∧
            requests out.2 = (requests w ++ [r])%list
  end.
Proof.
  simpl. unfold SyncRest.update. rewrite api_error_handler_run. simpl.
  unfold SyncRest.update_body.
  set (w0 := {| heap := heap w; requests := requests w;
                events := (events w ++ ["client.update"])%list |}).
  rewrite (bind_Ok (capture_client_event "client.update") _ w tt w0) by reflexivity.
  destruct (config_error self) as [msg|] eqn:Hc.
  - destruct (prepare_params_error self None w0 msg Hc I) as (w' & Hrun & _ & Hq & He).
    rewrite (bind_Raise _ _ _ _ _ Hrun). unfold refused. simpl.
    by rewrite Hq, He.
  - destruct (prepare_params_None_run self w0 Hc) as (r & w1 & Hrun & Hr & Hq & He & _).
    rewrite (bind_Ok _ _ _ _ _ Hrun), (bind_Ok _ _ _ _ _ (read_dict_run _ _ _ Hr)).
    destruct (exchange_run srv
      (request PUT ("/v1/memories/" +:+ memory_id +:+ "/")
         (Some (reconciled self ∅)) (Some {[ "text" := VStr data ]})) w1)
      as (H1 & H2 & H3).
    unfold reconciled, request in *. simpl in *.
    rewrite H1, H2, H3, Hq, He. subst w0. simpl. by rewrite app_nil_r.
Qed.

(** ** Operations with keyword arguments *)

Lemma fresh_ref_ne (h : gmap ref dict) l : is_Some (h !! l) → fresh (dom h) ≠ l.
Proof. intros [d Hd] E. rewrite <- E, fresh_ref_unused in Hd. done. Qed.

Lemma drop_metadata_run l d w :
  heap w !! l = Some d →
  ∃ w', drop_metadata l w = (Ok tt, w') ∧
        requests w' = requests w ∧ events w' = events w.
Proof.
  intros Hl. unfold drop_metadata.
  rewrite (bind_Ok _ _ _ _ _ (dict_contains_run _ _ "metadata" _ Hl)).
  destruct (d !! "metadata") as [v|] eqn:E; simpl.
  - unfold dict_delitem. rewrite (bind_Ok _ _ _ _ _ (read_dict_run _ _ _ Hl)), E.
    by eexists.
  - by eexists.
Qed.

(** From the request to the return statement, for the operations that
    drop ["metadata"] from a dictionary on the way. *)
Lemma finish_metadata_run srv r kwargs d name w :
  heap w !! kwargs = Some d →
  observes ((response <- send srv r ;; raise_for_status response ;;
             drop_metadata kwargs ;; capture_client_event name ;;
             response_json response) w) w
    (exchange srv (requests w) r) [r]
    (if accepted srv (requests w) r then [name] else []).
Proof.
  intros Hl. unfold observes, exchange, accepted.
  destruct (srv (requests w) r) as [resp | msg] eqn:E.
  - rewrite (bind_Ok _ _ w resp (log_request r w)) by (unfold send; by rewrite E).
    unfold raise_for_status. destruct (is_success resp).
    + rewrite (bind_Ok _ _ _ tt (log_request r w)) by done.
      destruct (drop_metadata_run kwargs d (log_request r w) Hl) as (w' & Hrun & Hq & He).
      rewrite (bind_Ok _ _ _ _ _ Hrun).
      unfold bind, capture_client_event, response_json, ret, raise. simpl.
      rewrite Hq, He. by destruct (json_value resp).
    + rewrite (bind_Raise _ _ _ (HTTPStatusError resp) (log_request r w)) by done.
      simpl. by rewrite app_nil_r.
  - rewrite (bind_Raise _ _ w (RequestError msg) (log_request r w))
      by (unfold send; by rewrite E).
    simpl. by rewrite app_nil_r.
Qed.

Lemma dict_update_run l d other w :
  heap w !! l = Some d →
  dict_update l other w = (Ok tt, set_heap (<[l := other ∪ d]> (heap w)) w).
Proof.
  intros Hl. unfold dict_update.
  by rewrite (bind_Ok _ _ _ _ _ (read_dict_run _ _ _ Hl)).
Qed.

Lemma inject_lookup_other self (m : dict) k :
  k ≠ "org_id" → k ≠ "project_id" → k ≠ "org_name" → k ≠ "project_name" →
  inject self m !! k = m !! k.
Proof.
  intros H1 H2 H3 H4. unfold inject.
  destruct (truthy (org_id self) && truthy (project_id self)),
    (truthy (organization self) && truthy (project self));
    by rewrite ?lookup_insert_ne.
Qed.

Lemma reconciled_lookup_other self (kw : dict) k :
  k ≠ "org_id" → k ≠ "project_id" → k ≠ "org_name" → k ≠ "project_name" →
  kw !! k = None → reconciled self kw !! k = None.
Proof.
  intros H1 H2 H3 H4 Hk. apply drop_none_lookup_None. left.
  by rewrite inject_lookup_other.
Qed.

Lemma search_body_run srv self query version kw name w
    (body_of : M value) :
  config_error self = None →
  body_of = (kwargs <- new_dict kw ;;
             payload <- new_dict {[ "query" := VStr query ]} ;;
             params <- _prepare_params self (Some kwargs) ;;
             ps <- read_dict params ;;
             dict_update payload ps ;;
             body <- read_dict payload ;;
             response <- send srv {| req_method := POST;
                                     req_url := "/" +:+ version +:+ "/memories/search/";
                                     req_params := None; req_json := Some body |} ;;
             raise_for_status response ;;
             drop_metadata kwargs ;;
             capture_client_event name ;;
             response_json response) →
  let r := request POST ("/" +:+ version +:+ "/memories/search/") None
             (Some (reconciled self kw ∪ {[ "query" := VStr query ]})) in
  observes (body_of w) w (exchange srv (requests w) r) [r]
    (if accepted srv (requests w) r then [name] else []).
Proof.
  intros Hc -> r. unfold bind at 1. simpl. unfold bind at 1. simpl.
  set (l0 := fresh (dom (heap w))).
  set (h1 := <[l0 := kw]> (heap w)).
  set (l1 := fresh (dom h1)).
  set (h2 := <[l1 := {[ "query" := VStr query ]}]> h1).
  assert (H10 : l1 ≠ l0) by (apply fresh_ref_ne; subst h1; by rewrite lookup_insert_eq).
  assert (Hl0 : h2 !! l0 = Some kw).
  { subst h2 h1. rewrite lookup_insert_ne by done. apply lookup_insert_eq. }
  erewrite bind_Ok; [| erewrite prepare_params_Some by exact Hl0; by rewrite Hc].
  simpl. set (l2 := fresh (dom h2)).
  assert (H20 : l2 ≠ l0) by (apply fresh_ref_ne; by rewrite Hl0).
  assert (H21 : l2 ≠ l1) by (apply fresh_ref_ne; subst h2; by rewrite lookup_insert_eq).
  erewrite bind_Ok; [| by apply read_dict_run, lookup_insert_eq].
  erewrite bind_Ok; cycle 1.
  { apply dict_update_run. simpl. rewrite !lookup_insert_ne by done.
    subst h2. apply lookup_insert_eq. }
  erewrite bind_Ok; [| by apply read_dict_run, lookup_insert_eq].
  match goal with
  | |- observes (_ ?w2) _ _ _ _ =>
      assert (Hk : heap w2 !! l0 = Some (inject self kw));
      [| exact (finish_metadata_run srv r l0 _ name w2 Hk)]
  end.
  simpl. rewrite lookup_insert_ne by done. rewrite lookup_insert_ne by done.
  apply lookup_insert_eq.
Qed.

(** X8: [search] has no check on the version: for every version string
    it posts once to [/{version}/memories/search/], with no query
    parameters and a body made of the reconciled keyword arguments and
    the query text under ["query"]; the synchronous client translates
    failures, the asynchronous one raises them as they are. *)
Theorem search_run srv self query version kw w :
  config_error self = None →
  let r := request POST ("/" +:+ version +:+ "/memories/search/") None
             (Some (reconciled self kw ∪ {[ "query" := VStr query ]})) in
  observes (SyncRest.search srv self query version kw w) w
    (translated (exchange srv (requests w) r)) [r]
    (if accepted srv (requests w) r then ["client.search"] else []) ∧
  observes (await (AsyncRest.search srv (async_of self) query version kw) w) w
    (exchange srv (requests w) r) [r]
    (if accepted srv (requests w) r then ["async_client.search"] else []) ∧
  (kw !! "query" = None →
   (reconciled self kw ∪ {[ "query" := VStr query ]}) !! "query" = Some (VStr query)).
Proof.
  intros Hc r. split_and!.
  - apply observes_api_error_handler.
    by apply (search_body_run srv self query version kw "client.search").
  - apply observes_await.
    by apply (search_body_run srv self query version kw "async_client.search").
  - intros Hq. rewrite lookup_union_r by by apply reconciled_lookup_other.
    apply lookup_singleton_eq.
Qed.

Lemma search_run_witness :
  let srv := ok_server in
  let self := id_session in
  let kw := paged_kwargs in
  let w := empty_world in
  let r := request POST ("/" +:+ "v7" +:+ "/memories/search/") None
             (Some (reconciled self kw ∪ {[ "query" := VStr "tea" ]})) in
  observes (SyncRest.search srv self "tea" "v7" kw w) w
    (translated (exchange srv (requests w) r)) [r]
    (if accepted srv (requests w) r then ["client.search"] else []) ∧
  observes (await (AsyncRest.search srv (async_of self) "tea" "v7" kw) w) w
    (exchange srv (requests w) r) [r]
    (if accepted srv (requests w) r then ["async_client.search"] else []) ∧
  (kw !! "query" = None →
   (reconciled self kw ∪ {[ "query" := VStr "tea" ]}) !! "query" = Some (VStr "tea")).
Proof.
  apply (search_run ok_server id_session "tea" "v7" paged_kwargs empty_world).
  reflexivity.
Defined.

Lemma drop_none_idemp (m : dict) : drop_none (drop_none m) = drop_none m.
Proof.
  apply map_eq. intros k. apply option_eq. intros v.
  rewrite !drop_none_lookup. tauto.
Qed.

Lemma bind_assoc {A B C} (c : M A) (f : A → M B) (g : B → M C) w :
  bind (bind c f) g w = bind c (λ a, bind (f a) g) w.
Proof. unfold bind. by destruct (c w) as [[a|e] w']. Qed.

Lemma add_body_run srv self messages kw name w (body_of : M value) :
  config_error self = None →
  body_of = (kwargs <- new_dict kw ;;
             kwargs <- _prepare_params self (Some kwargs) ;;
             payload <- _prepare_payload messages kwargs ;;
             body <- read_dict payload ;;
             response <- send srv {| req_method := POST; req_url := "/v1/memories/";
                                     req_params := None; req_json := Some body |} ;;
             raise_for_status response ;;
             drop_metadata kwargs ;;
             capture_client_event name ;;
             response_json response) →
  let r := request POST "/v1/memories/" None
             (Some (reconciled self kw ∪ message_field messages)) in
  observes (body_of w) w (exchange srv (requests w) r) [r]
    (if accepted srv (requests w) r then [name] else []).
Proof.
  intros Hc -> r.
  rewrite (prepare_call_kwargs self kw
    (λ _ kwargs, payload <- _prepare_payload messages kwargs ;;
       body <- read_dict payload ;;
       response <- send srv {| req_method := POST; req_url := "/v1/memories/";
                               req_params := None; req_json := Some body |} ;;
       raise_for_status response ;;
       drop_metadata kwargs ;;
       capture_client_event name ;;
       response_json response) w).
  simpl. rewrite Hc.
  set (l0 := fresh (dom (heap w))).
  set (h1 := <[l0 := kw]> (heap w)).
  set (l1 := fresh (dom h1)).
  set (h3 := <[l1 := drop_none (inject self kw)]> (<[l0 := inject self kw]> h1)).
  erewrite bind_Ok; [| by apply prepare_payload_run, lookup_insert_eq].
  simpl. erewrite bind_Ok; [| by apply read_dict_run, lookup_insert_eq].
  rewrite drop_none_idemp.
  assert (Hne : fresh (dom h3) ≠ l1)
    by (apply fresh_ref_ne; subst h3; by rewrite lookup_insert_eq).
  match goal with
  | |- observes (_ ?w2) _ _ _ _ =>
      assert (Hk : heap w2 !! l1 = Some (drop_none (inject self kw)));
      [| exact (finish_metadata_run srv r l1 _ name w2 Hk)]
  end.
  simpl. rewrite lookup_insert_ne by done. apply lookup_insert_eq.
Qed.

(** X9: [add] posts once to [/v1/memories/], with no query parameters
    and a body made of the reconciled keyword arguments and the
    normalised messages; when no keyword argument is named
    ["messages"], a string [s] arrives as [[{role: "user", content:
    s}]] and a list as itself. The synchronous client translates
    failures, the asynchronous one raises them as they are. *)
Theorem add_run srv self messages kw w :
  config_error self = None →
  let body := reconciled self kw ∪ message_field messages in
  let r := request POST "/v1/memories/" None (Some body) in
  observes (Sync.add srv self messages kw w) w
    (translated (exchange srv (requests w) r)) [r]
    (if accepted srv (requests w) r then ["client.add"] else []) ∧
  observes (await (Async.add srv (async_of self) messages kw) w) w
    (exchange srv (requests w) r) [r]
    (if accepted srv (requests w) r then ["async_client.add"] else []) ∧
  (∀ k v, reconciled self kw !! k = Some v → body !! k = Some v) ∧
  (kw !! "messages" = None →
   (∀ s, messages = VStr s →
      body !! "messages" =
        Some (VList [VDict [("role", VStr "user"); ("content", VStr s)]])) ∧
   (∀ l, messages = VList l → body !! "messages" = Some (VList l))).
Proof.
  intros Hc body r. split_and!.
  - apply observes_api_error_handler.
    by apply (add_body_run srv self messages kw "client.add").
  - apply observes_await.
    by apply (add_body_run srv self messages kw "async_client.add").
  - intros k v Hk. by apply lookup_union_Some_l.
  - intros Hm. subst body.
    assert (reconciled self kw !! "messages" = None) by by apply reconciled_lookup_other.
    split; intros ? ->; rewrite lookup_union_r by done; apply lookup_singleton_eq.
Qed.

Lemma add_run_witness :
  let srv := ok_server in
  let self := id_session in
  let kw := paged_kwargs in
  let w := empty_world in
  let messages := VStr "hi" in
  let body := reconciled self kw ∪ message_field messages in
  let r := request POST "/v1/memories/" None (Some body) in
  observes (Sync.add srv self messages kw w) w
    (translated (exchange srv (requests w) r)) [r]
    (if accepted srv (requests w) r then ["client.add"] else []) ∧
  observes (await (Async.add srv (async_of self) messages kw) w) w
    (exchange srv (requests w) r) [r]
    (if accepted srv (requests w) r then ["async_client.add"] else []) ∧
  (∀ k v, reconciled self kw !! k = Some v → body !! k = Some v) ∧
  (kw !! "messages" = None →
   (∀ s, messages = VStr s →
      body !! "messages" =
        Some (VList [VDict [("role", VStr "user"); ("content", VStr s)]])) ∧
   (∀ l, messages = VList l → body !! "messages" = Some (VList l))).
Proof.
  apply (add_run ok_server id_session (VStr "hi") paged_kwargs empty_world).
  reflexivity.
Defined.

(** X10: the operations that send their keyword arguments as filters.
    [delete_all] and [get_memory_export] issue one request with the
    reconciled keyword arguments as query parameters and no body, and so
    does [get_all] with version ["v1"], where [page] and [page_size]
    stay among the query parameters; the synchronous
    [create_memory_export] posts the reconciled keyword arguments and
    the schema as its body. *)
Theorem filter_operations_run srv self schema kw w :
  config_error self = None →
  let ps := reconciled self kw in
  let sees (out : Result value * World) (r : Request) (name : string) :=
    observes out w (translated (exchange srv (requests w) r)) [r]
      (if accepted srv (requests w) r then [name] else []) in
  let sees_async (out : Result value * World) (r : Request) (name : string) :=
    observes out w (exchange srv (requests w) r) [r]
      (if accepted srv (requests w) r then [name] else []) in
  sees (SyncRest.delete_all srv self kw w)
    (request DELETE "/v1/memories/" (Some ps) None) "client.delete_all" ∧
  sees_async (await (AsyncRest.delete_all srv (async_of self) kw) w)
    (request DELETE "/v1/memories/" (Some ps) None) "async_client.delete_all" ∧
  sees (SyncRest.get_memory_export srv self kw w)
    (request GET "/v1/exports/" (Some ps) None) "client.get_memory_export" ∧
  sees (Sync.get_all srv self "v1" kw w)
    (request GET "/v1/memories/" (Some ps) None) "client.get_all" ∧
  sees_async (await (Async.get_all srv (async_of self) "v1" kw) w)
    (request GET "/v1/memories/" (Some ps) None) "async_client.get_all" ∧
  sees (SyncRest.create_memory_export srv self schema kw w)
    (request POST "/v1/exports/" None (Some (ps ∪ {[ "schema" := VStr schema ]})))
    "client.create_memory_export".
Proof.
  intros Hc ps sees sees_async. subst sees sees_async ps. simpl.
  assert (Hget_all : ∀ name (body_of : M value),
    body_of = (kwargs <- new_dict kw ;;
               params <- _prepare_params self (Some kwargs) ;;
               response <- (ps <- read_dict params ;;
                            r <- send srv {| req_method := GET;
                                             req_url := "/v1/memories/";
                                             req_params := Some ps;
                                             req_json := None |} ;;
                            ret (Some r)) ;;
               response <- read_local "response" response ;;
               raise_for_status response ;;
               drop_metadata kwargs ;;
               capture_client_event name ;;
               response_json response) →
    observes (body_of w) w
      (exchange srv (requests w)
         (request GET "/v1/memories/" (Some (reconciled self kw)) None))
      [request GET "/v1/memories/" (Some (reconciled self kw)) None]
      (if accepted srv (requests w)
            (request GET "/v1/memories/" (Some (reconciled self kw)) None)
       then [name] else [])).
  { intros name body_of ->.
    rewrite (prepare_call_kwargs self kw
      (λ kwargs params,
         response <- (ps <- read_dict params ;;
                      r <- send srv {| req_method := GET;
                                       req_url := "/v1/memories/";
                                       req_params := Some ps;
                                       req_json := None |} ;;
                      ret (Some r)) ;;
         response <- read_local "response" response ;;
         raise_for_status response ;;
         drop_metadata kwargs ;;
         capture_client_event name ;;
         response_json response) w).
    simpl. rewrite Hc, bind_assoc.
    erewrite bind_Ok; [| by apply read_dict_run, lookup_insert_eq].
    rewrite bind_assoc.
    set (l0 := fresh (dom (heap w))).
    assert (Hne : fresh (dom (<[l0 := kw]> (heap w))) ≠ l0)
      by (apply fresh_ref_ne; by rewrite lookup_insert_eq).
    match goal with
    | |- observes (_ ?w2) _ _ _ _ =>
        assert (Hk : heap w2 !! l0 = Some (inject self kw));
        [| exact (finish_metadata_run srv
                    (request GET "/v1/memories/" (Some (reconciled self kw)) None)
                    l0 _ name w2 Hk)]
    end.
    simpl. rewrite lookup_insert_ne by done. rewrite insert_insert_eq.
    apply lookup_insert_eq. }
  split_and!.
  - apply observes_api_error_handler.
    pose proof (kwargs_call_run srv self kw
      (λ ps, request DELETE "/v1/memories/" (Some ps) None) "client.delete_all" w) as H.
    simpl in H. by rewrite Hc in H.
  - apply observes_await.
    pose proof (kwargs_call_run srv self kw
      (λ ps, request DELETE "/v1/memories/" (Some ps) None)
      "async_client.delete_all" w) as H.
    simpl in H. by rewrite Hc in H.
  - apply observes_api_error_handler.
    pose proof (kwargs_call_run srv self kw
      (λ ps, request GET "/v1/exports/" (Some ps) None)
      "client.get_memory_export" w) as H.
    simpl in H. by rewrite Hc in H.
  - apply observes_api_error_handler. by apply Hget_all.
  - apply observes_await. by apply Hget_all.
  - apply observes_api_error_handler. unfold SyncRest.create_memory_export_body.
    rewrite (prepare_call_kwargs self kw
      (λ _ params, ps <- read_dict params ;;
         json <- new_dict (ps ∪ {[ "schema" := VStr schema ]}) ;;
         body <- read_dict json ;;
         response <- send srv {| req_method := POST; req_url := "/v1/exports/";
                                 req_params := None; req_json := Some body |} ;;
         raise_for_status response ;;
         capture_client_event "client.create_memory_export" ;;
         response_json response) w).
    simpl. rewrite Hc.
    erewrite bind_Ok; [| by apply read_dict_run, lookup_insert_eq].
    unfold bind at 1. simpl.
    erewrite bind_Ok; [| by apply read_dict_run, lookup_insert_eq].
    match goal with
    | |- observes (_ ?w2) _ _ _ _ =>
        exact (proj1 (finish_run srv
                 (request POST "/v1/exports/" None
                    (Some (reconciled self kw ∪ {[ "schema" := VStr schema ]})))
                 "client.create_memory_export" w2))
    end.
Qed.

Lemma filter_operations_run_witness :
  let srv := ok_server in
  let self := id_session in
  let kw := paged_kwargs in
  let w := empty_world in
  let ps := reconciled self kw in
  let sees (out : Result value * World) (r : Request) (name : string) :=
    observes out w (translated (exchange srv (requests w) r)) [r]
      (if accepted srv (requests w) r then [name] else []) in
  let sees_async (out : Result value * World) (r : Request) (name : string) :=
    observes out w (exchange srv (requests w) r) [r]
      (if accepted srv (requests w) r then [name] else []) in
  sees (SyncRest.delete_all srv self kw w)
    (request DELETE "/v1/memories/" (Some ps) None) "client.delete_all" ∧
  sees_async (await (AsyncRest.delete_all srv (async_of self) kw) w)
    (request DELETE "/v1/memories/" (Some ps) None) "async_client.delete_all" ∧
  sees (SyncRest.get_memory_export srv self kw w)
    (request GET "/v1/exports/" (Some ps) None) "client.get_memory_export" ∧
  sees (Sync.get_all srv self "v1" kw w)
    (request GET "/v1/memories/" (Some ps) None) "client.get_all" ∧
  sees_async (await (Async.get_all srv (async_of self) "v1" kw) w)
    (request GET "/v1/memories/" (Some ps) None) "async_client.get_all" ∧
  sees (SyncRest.create_memory_export srv self "{}" kw w)
    (request POST "/v1/exports/" None (Some (ps ∪ {[ "schema" := VStr "{}" ]})))
    "client.create_memory_export".
Proof.
  apply (filter_operations_run ok_server id_session "{}" paged_kwargs empty_world).
  reflexivity.
Defined.

(** ** Exports and project settings *)

(** X11: on the asynchronous client [create_memory_export],
    [get_memory_export] and [get_project] never issue a request: they
    read [self._prepare_params], which [AsyncMemoryClient] does not
    have, so the awaited call raises [AttributeError] for every session
    and argument ([get_project] first raises [ValueError] when the IDs
    are not both set). *)
Theorem async_exports_never_sent srv self schema fields kw w :
  let missing : Result value := Raise (AttributeError "_prepare_params") in
  observes (await (AsyncRest.create_memory_export srv self schema kw) w) w missing [] [] ∧
  observes (await (AsyncRest.get_memory_export srv self kw) w) w missing [] [] ∧
  observes (await (AsyncRest.get_project srv self fields) w) w
    (if truthy (org_id (sync_client self)) && truthy (project_id (sync_client self))
     then missing
     else Raise (ValueError "org_id and project_id must be set to access instructions or categories"))
    [] [].
Proof.
  simpl. split_and!; apply observes_await; unfold observes.
  - simpl. by rewrite !app_nil_r.
  - simpl. by rewrite !app_nil_r.
  - unfold AsyncRest.get_project_body.
    destruct (truthy (org_id (sync_client self)) && truthy (project_id (sync_client self)));
      simpl; by rewrite !app_nil_r.
Qed.

(** X12: the synchronous [update_project] checks in this order: without
    both IDs it raises [ValueError] and sends nothing; with both new
    values null it raises [ValueError] and sends nothing; otherwise, on
    a session that reconciliation accepts, it sends one [PATCH] to the
    project's path whose body holds the non-null new values and the
    session's two IDs, with no query parameters. *)
Theorem sync_update_project_run srv self ci cc w :
  let out := SyncRest.update_project srv self ci cc w in
  let r := request PATCH (project_url self) None
             (Some (reconciled self (<["custom_categories" := cc]>
                                       {[ "custom_instructions" := ci ]}))) in
  (truthy (org_id self) && truthy (project_id self) = false →
   refused out w "org_id and project_id must be set to update instructions or categories") ∧
  (truthy (org_id self) && truthy (project_id self) = true →
   ci = VNone → cc = VNone →
   refused out w "Currently we only support updating custom_instructions or custom_categories, so you must provide at least one of them") ∧
  (truthy (org_id self) && truthy (project_id self) = true →
   config_error self = None → ci ≠ VNone ∨ cc ≠ VNone →
   observes out w (translated (exchange srv (requests w) r)) [r]
     (if accepted srv (requests w) r then ["client.update_project"] else []) ∧
   ∀ body, req_json r = Some body →
     body !! "org_id" = Some (str_value (org_id self)) ∧
     body !! "project_id" = Some (str_value (project_id self)) ∧
     (ci ≠ VNone → body !! "custom_instructions" = Some ci) ∧
     (cc ≠ VNone → body !! "custom_categories" = Some cc) ∧
     (ci = VNone → body !! "custom_instructions" = None) ∧
     (cc = VNone → body !! "custom_categories" = None)).
Proof.
  simpl. unfold SyncRest.update_project, SyncRest.update_project_body.
  split_and!.
  - intros ->. simpl. by apply refused_handler.
  - intros -> -> ->. simpl. by apply refused_handler.
  - intros Hids Hc Hsome. rewrite Hids. simpl.
    assert (Hn : negb (is_not_none ci) && negb (is_not_none cc) = false).
    { destruct Hsome as [H | H]; [destruct ci | destruct cc]; simpl; try done;
        by rewrite andb_false_r. }
    rewrite Hn. split.
    + apply observes_api_error_handler.
      pose proof (kwargs_call_run srv self
        (<["custom_categories" := cc]> {[ "custom_instructions" := ci ]})
        (λ body, request PATCH (project_url self) None (Some body))
        "client.update_project" w) as H.
      simpl in H. by rewrite Hc in H.
    + intros body [= <-]. unfold reconciled.
      assert (Hinj : ∀ d, inject self d =
                <["project_id" := str_value (project_id self)]>
                  (<["org_id" := str_value (org_id self)]> d)).
      { intros d. unfold inject, config_error in *. rewrite Hids.
        destruct (truthy (org_id self)), (truthy (project_id self)); try done.
        simpl in Hc.
        destruct (truthy (organization self)), (truthy (project self)); done. }
      assert (Ho : str_value (org_id self) ≠ VNone).
      { destruct (org_id self); [done |]. done. }
      assert (Hp : str_value (project_id self) ≠ VNone).
      { destruct (project_id self); [done |]. rewrite andb_false_r in Hids. done. }
      rewrite Hinj. split_and!.
      * apply drop_none_lookup. split; [| done].
        rewrite lookup_insert_ne by done. apply lookup_insert_eq.
      * apply drop_none_lookup. split; [| done]. apply lookup_insert_eq.
      * intros H. apply drop_none_lookup. split; [| done].
        rewrite !lookup_insert_ne by done. apply lookup_singleton_eq.
      * intros H. apply drop_none_lookup. split; [| done].
        rewrite !lookup_insert_ne by done. apply lookup_insert_eq.
      * intros ->. apply drop_none_lookup_None. right.
        rewrite !lookup_insert_ne by done. apply lookup_singleton_eq.
      * intros ->. apply drop_none_lookup_None. right.
        rewrite !lookup_insert_ne by done. apply lookup_insert_eq.
Qed.

Lemma sync_update_project_run_witness :
  let r := request PATCH (project_url id_session) None
             (Some (reconciled id_session (<["custom_categories" := VNone]>
                                            {[ "custom_instructions" := VStr "be brief" ]}))) in
  observes (SyncRest.update_project ok_server id_session (VStr "be brief") VNone empty_world)
    empty_world (translated (exchange ok_server (requests empty_world) r)) [r]
    (if accepted ok_server (requests empty_world) r then ["client.update_project"] else []).
Proof.
  apply (proj2 (proj2 (sync_update_project_run ok_server id_session (VStr "be brief")
                         VNone empty_world))); [reflexivity | reflexivity |].
  left. discriminate.
Defined.

(** X13: the asynchronous [update_project] has no check on its two
    arguments: with both null, on a session with the ID pair set, it
    sends a [PATCH] whose body holds exactly the two IDs, where the
    synchronous version raises [ValueError] and sends nothing. *)
Theorem async_update_project_unchecked srv self o p w :
  org_id self = Some o → truthy (org_id self) = true →
  project_id self = Some p → truthy (project_id self) = true →
  truthy (organization self) = false → truthy (project self) = false →
  let r := request PATCH (project_url self) None
             (Some (<["project_id" := VStr p]> {[ "org_id" := VStr o ]})) in
  observes (await (AsyncRest.update_project srv (async_of self) VNone VNone) w) w
    (exchange srv (requests w) r) [r]
    (if accepted srv (requests w) r then ["async_client.update_project"] else []) ∧
  refused (SyncRest.update_project srv self VNone VNone w) w
    "Currently we only support updating custom_instructions or custom_categories, so you must provide at least one of them".
Proof.
  intros Ho To Hp Tp Tn1 Tn2 r. split.
  - apply observes_await. unfold AsyncRest.update_project_body. simpl.
    rewrite To, Tp. simpl.
    pose proof (kwargs_call_run srv self
      (<["custom_categories" := VNone]> {[ "custom_instructions" := VNone ]})
      (λ body, request PATCH (project_url self) None (Some body))
      "async_client.update_project" w) as H.
    simpl in H. rewrite config_error_ids in H by done.
    assert (E : reconciled self (<["custom_categories" := VNone]>
                                   {[ "custom_instructions" := VNone ]})
                = <["project_id" := VStr p]> {[ "org_id" := VStr o ]}).
    { unfold reconciled, inject. rewrite To, Tp, Tn1, Ho, Hp. reflexivity. }
    rewrite E in H. exact H.
  - unfold SyncRest.update_project, SyncRest.update_project_body.
    rewrite To, Tp. simpl. by apply refused_handler.
Qed.

Lemma async_update_project_unchecked_witness :
  let r := request PATCH (project_url id_session) None
             (Some (<["project_id" := VStr "p1"]> {[ "org_id" := VStr "o1" ]})) in
  observes (await (AsyncRest.update_project ok_server (async_of id_session) VNone VNone)
              empty_world) empty_world
    (exchange ok_server (requests empty_world) r) [r]
    (if accepted ok_server (requests empty_world) r
     then ["async_client.update_project"] else []) ∧
  refused (SyncRest.update_project ok_server id_session VNone VNone empty_world)
    empty_world
    "Currently we only support updating custom_instructions or custom_categories, so you must provide at least one of them".
Proof.
  apply (async_update_project_unchecked ok_server id_session "o1" "p1" empty_world);
    reflexivity.
Defined.

(** X14: the synchronous [get_project] raises [ValueError] and sends
    nothing unless both IDs are set; otherwise, on a session that
    reconciliation accepts, it sends one [GET] to the project's path,
    built from the two IDs, with the reconciled [fields] argument as
    query parameters; a null [fields] is not sent. *)
Theorem sync_get_project_run srv self fields w :
  let out := SyncRest.get_project srv self fields w in
  let r := request GET (project_url self)
             (Some (reconciled self {[ "fields" := fields ]})) None in
  (truthy (org_id self) && truthy (project_id self) = false →
   refused out w "org_id and project_id must be set to access instructions or categories") ∧
  (truthy (org_id self) && truthy (project_id self) = true →
   config_error self = None →
   observes out w (translated (exchange srv (requests w) r)) [r]
     (if accepted srv (requests w) r then ["client.get_project_details"] else []) ∧
   (fields = VNone → reconciled self {[ "fields" := fields ]} !! "fields" = None) ∧
   (fields ≠ VNone → reconciled self {[ "fields" := fields ]} !! "fields" = Some fields) ∧
   ∀ o p, org_id self = Some o → project_id self = Some p →
     project_url self = "/api/v1/orgs/organizations/" +:+ o +:+ "/projects/" +:+ p +:+ "/").
Proof.
  simpl. unfold SyncRest.get_project, SyncRest.get_project_body. split.
  - intros ->. simpl. by apply refused_handler.
  - intros Hids Hc. rewrite Hids. simpl. split_and!.
    + apply observes_api_error_handler.
      pose proof (kwargs_call_run srv self {[ "fields" := fields ]}
        (λ ps, request GET (project_url self) (Some ps) None)
        "client.get_project_details" w) as H.
      simpl in H. by rewrite Hc in H.
    + intros ->. apply drop_none_lookup_None. right.
      rewrite inject_lookup_other by done. apply lookup_singleton_eq.
    + intros Hf. apply drop_none_lookup. split; [| done].
      rewrite inject_lookup_other by done. apply lookup_singleton_eq.
    + intros o p Ho Hp. unfold project_url. by rewrite Ho, Hp.
Qed.

Lemma sync_get_project_run_witness :
  let fields := VList [VStr "custom_instructions"] in
  let r := request GET (project_url id_session)
             (Some (reconciled id_session {[ "fields" := fields ]})) None in
  observes (SyncRest.get_project ok_server id_session fields empty_world) empty_world
    (translated (exchange ok_server (requests empty_world) r)) [r]
    (if accepted ok_server (requests empty_world) r
     then ["client.get_project_details"] else []).
Proof.
  apply (proj2 (sync_get_project_run ok_server id_session
                  (VList [VStr "custom_instructions"]) empty_world));
    reflexivity.
Defined.

(** ** Deleting every entity, and [reset] *)

Lemma delete_each_all srv py_str params ps items reqs :
  Forall2 (λ item r, entity_delete py_str ps item = Some r) items reqs →
  ∀ w, heap w !! params = Some ps →
  all_succeed srv (requests w) reqs →
  Sync.delete_each srv py_str params items w =
    (Ok tt, {| heap := heap w; requests := (requests w ++ reqs)%list;
               events := events w |}).
Proof.
  induction 1 as [| item r items reqs Hitem _ IH]; intros w Hps Hall.
  - simpl. rewrite app_nil_r. by destruct w.
  - simpl in Hall. destruct Hall as [(resp & Hresp & Hok) Hall].
    destruct (entity_delete_subscripts _ _ _ _ Hitem) as (ty & id & Hty & Hid & ->).
    simpl.
    rewrite (bind_Ok _ _ _ _ _ (Hty w)), (bind_Ok _ _ _ _ _ (Hid w)).
    rewrite (bind_Ok _ _ _ _ _ (read_dict_run _ _ _ Hps)).
    unfold bind at 1, send. rewrite Hresp.
    unfold bind at 1, raise_for_status. rewrite Hok. simpl.
    rewrite IH; simpl; try done. by rewrite <- app_assoc.
Qed.

(** X15: when the listing and every deletion are answered 2xx,
    [delete_users] issues the listing request and then one [DELETE] per
    entity, in the order of the listing, returns its message and emits
    its event after the one of [users]; with an empty listing it issues
    the listing request alone. *)
Theorem delete_users_complete srv py_str self w listing kvs items reqs :
  let ps := reconciled self ∅ in
  let done_log := (requests w ++ [listing_request ps])%list in
  config_error self = None →
  srv (requests w) (listing_request ps) = Responded listing →
  is_success listing = true →
  json_value listing = Some (VDict kvs) →
  assoc "results" kvs = Some (VList items) →
  Forall2 (λ item r, entity_delete py_str ps item = Some r) items reqs →
  all_succeed srv done_log reqs →
  observes (Sync.delete_users srv py_str self w) w (Ok deleted_message)
    (listing_request ps :: reqs) ["client.users"; "client.delete_users"] ∧
  observes (await (Async.delete_users srv py_str (async_of self)) w) w
    (Ok deleted_message) (listing_request ps :: reqs)
    ["async_client.users"; "async_client.delete_users"].
Proof.
  intros ps done_log Hc Hsrv Hok Hjson Hres Hitems Hall.
  destruct (prepare_params_None_run self w Hc) as (r & w1 & Hrun & Hr & Hq & He & Hframe).
  split.
  - apply (observes_api_error_handler _ w (Ok deleted_message)).
    unfold Sync.delete_users_body. rewrite (bind_Ok _ _ _ _ _ Hrun).
    destruct (sync_users_body_run srv self w1 listing (VDict kvs))
      as (w2 & Hu & Hq2 & He2 & Hf2); [by rewrite ?Hq .. |].
    unfold Sync.users. unfold bind at 1.
    rewrite api_error_handler_run, Hu. simpl. rewrite Hres.
    unfold bind at 1. simpl. unfold bind at 1. simpl.
    erewrite bind_Ok.
    2:{ eapply (delete_each_all srv py_str r ps items reqs Hitems w2);
        [by rewrite Hf2 | by rewrite Hq2, Hq]. }
    unfold observes. simpl. rewrite Hq2, He2, Hq, He.
    by rewrite <- !app_assoc.
  - apply observes_await.
    unfold Async.delete_users_body. simpl. rewrite (bind_Ok _ _ _ _ _ Hrun).
    destruct (async_users_body_run srv self w1 listing (VDict kvs))
      as (w2 & Hu & Hq2 & He2 & Hf2); [by rewrite ?Hq .. |].
    unfold Async.users. unfold bind at 1.
    rewrite await_decorated, Hu. simpl. rewrite Hres.
    unfold bind at 1. simpl. unfold bind at 1. simpl.
    rewrite async_delete_each.
    erewrite bind_Ok.
    2:{ eapply (delete_each_all srv py_str r ps items reqs Hitems w2);
        [by rewrite Hf2 | by rewrite Hq2, Hq]. }
    unfold observes. simpl. rewrite Hq2, He2, Hq, He.
    by rewrite <- !app_assoc.
Qed.

(** X16: when the listing is a JSON object without ["results"],
    [delete_users] raises [KeyError] after the listing request and
    deletes nothing; the error boundary leaves the [KeyError] as it
    is. *)
Theorem delete_users_without_results srv py_str self w listing kvs :
  let ps := reconciled self ∅ in
  config_error self = None →
  srv (requests w) (listing_request ps) = Responded listing →
  is_success listing = true →
  json_value listing = Some (VDict kvs) →
  assoc "results" kvs = None →
  observes (Sync.delete_users srv py_str self w) w (Raise (KeyError "results"))
    [listing_request ps] ["client.users"] ∧
  observes (await (Async.delete_users srv py_str (async_of self)) w) w
    (Raise (KeyError "results")) [listing_request ps] ["async_client.users"].
Proof.
  intros ps Hc Hsrv Hok Hjson Hres.
  destruct (prepare_params_None_run self w Hc) as (r & w1 & Hrun & Hr & Hq & He & Hframe).
  split.
  - apply (observes_api_error_handler _ w (Raise (KeyError "results"))).
    unfold Sync.delete_users_body. rewrite (bind_Ok _ _ _ _ _ Hrun).
    destruct (sync_users_body_run srv self w1 listing (VDict kvs))
      as (w2 & Hu & Hq2 & He2 & Hf2); [by rewrite ?Hq .. |].
    unfold Sync.users. unfold bind at 1.
    rewrite api_error_handler_run, Hu. simpl. rewrite Hres.
    unfold observes. simpl. by rewrite Hq2, He2, Hq, He.
  - apply observes_await.
    unfold Async.delete_users_body. simpl. rewrite (bind_Ok _ _ _ _ _ Hrun).
    destruct (async_users_body_run srv self w1 listing (VDict kvs))
      as (w2 & Hu & Hq2 & He2 & Hf2); [by rewrite ?Hq .. |].
    unfold Async.users. unfold bind at 1.
    rewrite await_decorated, Hu. simpl. rewrite Hres.
    unfold observes. simpl. by rewrite Hq2, He2, Hq, He.
Qed.

Lemma except_clauses_idemp e : except_clauses (except_clauses e) = except_clauses e.
Proof. by destruct e. Qed.

(** Nesting the error boundary changes nothing. *)
Lemma api_error_handler_idemp {A} (func : M A) w :
  api_error_handler (api_error_handler func) w = api_error_handler func w.
Proof.
  rewrite !api_error_handler_run. simpl.
  destruct (func w).1; [done |]. by rewrite except_clauses_idemp.
Qed.

Lemma then_event_run {A} (c : M A) name (v : value) w :
  let inner := c w in
  let outer := (c ;; capture_client_event name ;; ret v) w in
  requests outer.2 = requests inner.2 ∧
  match inner.1 with
  | Ok _ => outer.1 = Ok v ∧ events outer.2 = (events inner.2 ++ [name])%list
  | Raise e => outer.1 = Raise e ∧ events outer.2 = events inner.2
  end.
Proof. simpl. unfold bind. by destruct (c w) as [[a|e] w']. Qed.

Lemma handler_raises_fixed {A} (func : M A) w e :
  (api_error_handler func w).1 = Raise e → except_clauses e = e.
Proof.
  rewrite api_error_handler_run. simpl.
  destruct (func w).1; [done |]. intros [= <-]. apply except_clauses_idemp.
Qed.

(** X17: [reset] is [delete_users] followed by one telemetry event: it
    issues the requests of [delete_users] and no other; when
    [delete_users] returns, [reset] returns its own message and emits
    its event; when [delete_users] raises, [reset] raises the same
    exception, which the second pass through the error boundary does
    not change, and emits no event. *)
Theorem reset_composes srv py_str self w :
  let inner := Sync.delete_users srv py_str self w in
  let outer := SyncRest.reset srv py_str self w in
  let inner_async := await (Async.delete_users srv py_str (async_of self)) w in
  let outer_async := await (AsyncRest.reset srv py_str (async_of self)) w in
  requests outer.2 = requests inner.2 ∧
  match inner.1 with
  | Ok _ => outer.1 = Ok reset_message ∧
            events outer.2 = (events inner.2 ++ ["client.reset"])%list
  | Raise e => outer.1 = Raise e ∧ events outer.2 = events inner.2
  end ∧
  requests outer_async.2 = requests inner_async.2 ∧
  match inner_async.1 with
  | Ok _ => outer_async.1 = Ok reset_message ∧
            events outer_async.2 = (events inner_async.2 ++ ["async_client.reset"])%list
  | Raise e => outer_async.1 = Raise e ∧ events outer_async.2 = events inner_async.2
  end.
Proof.
  simpl. split_and!.
  - unfold SyncRest.reset. rewrite requests_api_error_handler.
    apply (then_event_run (Sync.delete_users srv py_str self)).
  - unfold SyncRest.reset. rewrite api_error_handler_run. simpl.
    destruct (then_event_run (Sync.delete_users srv py_str self) "client.reset"
                reset_message w) as [_ H].
    unfold SyncRest.reset_body. unfold reset_message in *.
    destruct (Sync.delete_users srv py_str self w).1 as [a|e] eqn:E.
    + destruct H as [-> ?]. done.
    + destruct H as [-> ?]. by rewrite (handler_raises_fixed _ _ _ E).
  - unfold AsyncRest.reset. rewrite await_decorated.
    apply (then_event_run (await (Async.delete_users srv py_str (async_of self)))).
  - unfold AsyncRest.reset. rewrite await_decorated.
    apply (then_event_run (await (Async.delete_users srv py_str (async_of self)))).
Qed.

Lemma delete_users_complete_witness :
  let srv := accepts_all in
  let py_str : value → string := λ _, "" in
  let self := plain_session in
  let w := empty_world in
  let ps := reconciled self ∅ in
  let reqs := [Sync.entity_request py_str (VStr "user") (VStr "alice") ps;
               Sync.entity_request py_str (VStr "agent") (VStr "bot") ps;
               Sync.entity_request py_str (VStr "user") (VStr "carol") ps] in
  observes (Sync.delete_users srv py_str self w) w (Ok deleted_message)
    (listing_request ps :: reqs) ["client.users"; "client.delete_users"] ∧
  observes (await (Async.delete_users srv py_str (async_of self)) w) w
    (Ok deleted_message) (listing_request ps :: reqs)
    ["async_client.users"; "async_client.delete_users"].
Proof.
  intros srv py_str self w ps reqs.
  apply (delete_users_complete srv py_str self w (listing_of three_entities)
           [("results", VList three_entities)] three_entities reqs);
    try reflexivity.
  - repeat constructor.
  - simpl. repeat split; by exists ok_response.
Defined.

Lemma delete_users_without_results_witness :
  let srv := ok_server in
  let py_str : value → string := λ _, "" in
  let self := plain_session in
  let w := empty_world in
  let ps := reconciled self ∅ in
  observes (Sync.delete_users srv py_str self w) w (Raise (KeyError "results"))
    [listing_request ps] ["client.users"] ∧
  observes (await (Async.delete_users srv py_str (async_of self)) w) w
    (Raise (KeyError "results")) [listing_request ps] ["async_client.users"].
Proof.
  apply (delete_users_without_results ok_server (λ _, "") plain_session empty_world
           ok_response []); reflexivity.
Defined.

(** ** Construction *)

Lemma validate_api_key_eq srv self w :
  config_error self = None →
  ∃ w', requests w' = (requests w ++ [ping_request self])%list ∧
        events w' = events w ∧
        _validate_api_key srv self w =
          (match srv (requests w) (ping_request self) with
           | Failed msg => Raise (RequestError msg)
           | Responded resp =>
               if is_success resp then
                 if status_code resp =? 200 then
                   match json_value resp with
                   | None => Raise JSONDecodeError
                   | Some (VDict kvs) => Ok (ids_of kvs)
                   | Some _ => Raise (AttributeError "get")
                   end
                 else Ok None
               else Raise (ValueError invalid_key_message)
           end, w').
Proof.
  intros Hc. unfold _validate_api_key, ping_request, request, reconciled.
  destruct (prepare_params_None_run self w Hc) as (r & w1 & Hrun & Hr & Hq & He & _).
  rewrite (bind_Ok _ _ _ _ _ Hrun), (bind_Ok _ _ _ _ _ (read_dict_run _ _ _ Hr)).
  unfold bind at 1, send. rewrite Hq.
  destruct (srv (requests w) _) as [resp | msg]; simpl.
  2:{ eexists. split_and!; [| | reflexivity]; simpl; by rewrite ?Hq, ?He. }
  unfold bind at 1, raise_for_status.
  destruct (is_success resp); simpl.
  2:{ eexists. split_and!; [| | reflexivity]; simpl; by rewrite ?Hq, ?He. }
  destruct (status_code resp =? 200); simpl.
  2:{ eexists. split_and!; [| | reflexivity]; simpl; by rewrite ?Hq, ?He. }
  unfold bind at 1, response_json.
  destruct (json_value resp) as [data|]; simpl.
  2:{ eexists. split_and!; [| | reflexivity]; simpl; by rewrite ?Hq, ?He. }
  destruct data as [| | | | |kvs]; simpl;
    try (eexists; split_and!; [| | reflexivity]; simpl; by rewrite ?Hq, ?He).
  unfold ids_of, bind, ret.
  destruct (value_truthy (default VNone (assoc "org_id" kvs))); simpl;
    [destruct (value_truthy (default VNone (assoc "project_id" kvs))); simpl |];
    eexists; (split_and!; [| | reflexivity]); simpl; by rewrite ?Hq, ?He.
Qed.

(** X18: what [_validate_api_key] does on a session that reconciliation
    accepts. It issues exactly one request, [GET /v1/ping/] with the
    reconciled identifiers. A transport failure is raised as it is; a
    response that is not 2xx becomes the [ValueError] for an invalid
    key; a 2xx response other than 200 is not decoded and assigns
    nothing; a 200 response whose body does not decode raises the
    decoding error; a 200 response with a JSON object assigns the
    object's ["org_id"] and ["project_id"] when both are true values,
    and nothing otherwise. *)
Theorem validate_api_key_run srv self w :
  config_error self = None →
  let out := _validate_api_key srv self w in
  let answer := srv (requests w) (ping_request self) in
  requests out.2 = (requests w ++ [ping_request self])%list ∧
  events out.2 = events w ∧
  (∀ msg, answer = Failed msg → out.1 = Raise (RequestError msg)) ∧
  (∀ resp, answer = Responded resp → is_success resp = false →
     out.1 = Raise (ValueError invalid_key_message)) ∧
  (∀ resp, answer = Responded resp → is_success resp = true →
     status_code resp ≠ 200 → out.1 = Ok None) ∧
  (∀ resp, answer = Responded resp → status_code resp = 200 →
     json_value resp = None → out.1 = Raise JSONDecodeError) ∧
  (∀ resp kvs, answer = Responded resp → status_code resp = 200 →
     json_value resp = Some (VDict kvs) → out.1 = Ok (ids_of kvs)).
Proof.
  intros Hc out answer.
  destruct (validate_api_key_eq srv self w Hc) as (w' & Hq & He & Heq).
  subst out answer. rewrite Heq. simpl. split_and!; try done.
  - by intros msg ->.
  - by intros resp -> ->.
  - intros resp -> -> H. apply Z.eqb_neq in H. by rewrite H.
  - intros resp -> H ->. unfold is_success. by rewrite H.
  - intros resp kvs -> H ->. unfold is_success. by rewrite H.
Qed.

Lemma validate_api_key_run_witness :
  let srv := legacy_ping in
  let self := name_session in
  let w := empty_world in
  let out := _validate_api_key srv self w in
  requests out.2 = (requests w ++ [ping_request self])%list ∧
  out.1 = Ok (Some (VStr "o1", VStr "p1")).
Proof.
  destruct (validate_api_key_run legacy_ping name_session empty_world eq_refl)
    as (Hq & _ & _ & _ & _ & _ & Hids).
  split; [exact Hq |].
  exact (Hids _ [("org_id", VStr "o1"); ("project_id", VStr "p1")] eq_refl eq_refl eq_refl).
Defined.

Lemma same_identifiers_session self :
  same_identifiers self
    (session (organization self) (project self) (org_id self) (project_id self)).
Proof. done. Qed.

Lemma ping_request_identifiers a b :
  same_identifiers a b → ping_request a = ping_request b.
Proof.
  intros H. unfold ping_request, reconciled. by rewrite (same_identifiers_inject _ _ _ H).
Qed.

Lemma key_present (api_key getenv : option string) :
  truthy api_key = true ∨ truthy getenv = true →
  truthy (if truthy api_key then api_key else getenv) = true.
Proof. intros [H | H]; destruct (truthy api_key) eqn:E; congruence. Qed.

(** X19: the constructor checks its arguments before it contacts the
    server. Without an API key, neither as argument nor in the
    environment ([None] or empty in both places), it raises [ValueError]
    whatever the identifiers are; with a key and identifiers that
    reconciliation rejects it raises the [ValueError] of reconciliation;
    in both cases the ping is not sent and no telemetry is emitted. *)
Theorem init_checks_before_ping srv getenv uid key_arg host_arg org_name proj_name
    oid pid w :
  let out := __init__ srv getenv uid key_arg host_arg org_name proj_name oid pid w in
  (truthy key_arg = false → truthy getenv = false →
   observes out w
     (Raise (ValueError "Mem0 API Key not provided. Please provide an API Key.")) [] []) ∧
  (∀ msg, truthy key_arg = true ∨ truthy getenv = true →
     config_error (session org_name proj_name oid pid) = Some msg →
     observes out w (Raise (ValueError msg)) [] []).
Proof.
  simpl. split.
  - intros Ha He. unfold __init__. rewrite Ha, He. unfold observes. simpl.
    by rewrite !app_nil_r.
  - intros msg Hk Hc. unfold __init__. rewrite (key_present _ _ Hk). simpl.
    set (self := {| api_key := _ |}).
    assert (Hs : config_error self = Some msg).
    { rewrite <- Hc. by apply same_identifiers_config_error. }
    unfold _validate_api_key.
    destruct (prepare_params_error self None w msg Hs I) as (w' & Hrun & _ & Hq & He).
    unfold bind at 1. rewrite (bind_Raise _ _ _ _ _ Hrun).
    unfold observes. simpl. by rewrite Hq, He, !app_nil_r.
Qed.

Lemma init_checks_before_ping_witness :
  observes (__init__ ok_server (Some "") "me" None None (Some "acme") None (Some "o1") None
              empty_world) empty_world
    (Raise (ValueError "Mem0 API Key not provided. Please provide an API Key.")) [] [] ∧
  observes (__init__ ok_server None "me" (Some "k") None None None (Some "o1") None
              empty_world) empty_world
    (Raise (ValueError "Please provide both org_id and project_id")) [] [].
Proof.
  split.
  - apply (proj1 (init_checks_before_ping ok_server (Some "") "me" None None
                    (Some "acme") None (Some "o1") None empty_world)); reflexivity.
  - apply (proj2 (init_checks_before_ping ok_server None "me" (Some "k") None None None
                    (Some "o1") None empty_world)
             "Please provide both org_id and project_id"); [by left | reflexivity].
Defined.

Ltac answer_cases :=
  intros;
  repeat match goal with
         | H : Responded _ = Responded _ |- _ => injection H as <-
         | H : Failed _ = Failed _ |- _ => injection H as <-
         | H : Responded _ = Failed _ |- _ => discriminate H
         | H : Failed _ = Responded _ |- _ => discriminate H
         end.

(** The constructor once its arguments are accepted. *)
Lemma init_run_cases srv getenv uid key_arg host_arg organization project org_id project_id w :
  truthy key_arg = true ∨ truthy getenv = true →
  let ids := session organization project org_id project_id in
  config_error ids = None →
  let out := __init__ srv getenv uid key_arg host_arg organization project
               org_id project_id w in
  let answer := srv (requests w) (ping_request ids) in
  requests out.2 = (requests w ++ [ping_request ids])%list ∧
  (∀ msg, answer = Failed msg →
     out.1 = Raise (RequestError msg) ∧ events out.2 = events w) ∧
  (∀ resp, answer = Responded resp → is_success resp = false →
     out.1 = Raise (ValueError invalid_key_message) ∧ events out.2 = events w) ∧
  (∀ resp kvs, answer = Responded resp → status_code resp = 200 →
     json_value resp = Some (VDict kvs) →
     ∃ self, out.1 = Ok (self, ids_of kvs) ∧
       events out.2 = (events w ++ ["client.init"])%list ∧
       same_identifiers self ids ∧ user_id self = uid ∧
       api_key self = format_attr (if truthy key_arg then key_arg else getenv) ∧
       host self = (if truthy host_arg then format_attr host_arg
                    else "https://api.mem0.ai")).
Proof.
  intros Hk ids Hc out answer. subst out answer.
  unfold __init__. rewrite (key_present _ _ Hk). simpl.
  set (self := {| api_key := _ |}).
  assert (Hsame : same_identifiers self ids) by done.
  assert (Hs : config_error self = None).
  { rewrite <- Hc. by apply same_identifiers_config_error. }
  destruct (validate_api_key_eq srv self w Hs) as (w' & Hq & He & Heq).
  rewrite (ping_request_identifiers _ _ Hsame) in Hq, Heq.
  set (run := (assigned <- _validate_api_key srv self ;; _) w).
  assert (Hrun : run = match _validate_api_key srv self w with
                       | (Ok a, w1) =>
                           (Ok (self, a),
                            {| heap := heap w1; requests := requests w1;
                               events := (events w1 ++ ["client.init"])%list |})
                       | (Raise e, w1) => (Raise e, w1)
                       end).
  { subst run. unfold bind. by destruct (_validate_api_key srv self w) as [[a|e] w1]. }
  clearbody run. rewrite Heq in Hrun. clear Heq.
  destruct (srv (requests w) (ping_request ids)) as [resp | msg]; subst run; simpl.
  2:{ split_and!; try done; answer_cases; by split. }
  destruct (is_success resp) eqn:Hok; simpl.
  2:{ split_and!; try done; answer_cases; try (by split).
      unfold is_success in Hok.
      match goal with H : status_code _ = 200 |- _ => by rewrite H in Hok end. }
  destruct (status_code resp =? 200) eqn:H200; simpl.
  2:{ split_and!; try done; answer_cases; try congruence.
      apply Z.eqb_neq in H200. done. }
  destruct (json_value resp) as [data|] eqn:Hj; simpl.
  2:{ split_and!; try done; answer_cases; congruence. }
  destruct data as [| | | | |kvs]; simpl;
    (split_and!; try done; answer_cases; try congruence).
  match goal with H : json_value _ = Some (VDict ?k) |- _ =>
    rewrite Hj in H; injection H as <- end.
  exists self. rewrite He. split_and!; try done.
  subst self. simpl. by destruct (truthy host_arg).
Qed.



(** X21: a client built with the legacy names only becomes unusable
    when the ping is answered 200 with a non-empty ["org_id"] and
    ["project_id"]: the constructor succeeds and assigns the two IDs
    beside the names, and from then on reconciliation raises
    [ValueError] for every argument, so every operation that reconciles
    fails before it sends anything. *)
Theorem legacy_client_unusable srv getenv uid key_arg host_arg org_name proj_name
    resp kvs o p w :
  truthy key_arg = true ∨ truthy getenv = true →
  truthy org_name = true → truthy proj_name = true →
  let ids := session org_name proj_name None None in
  srv (requests w) (ping_request ids) = Responded resp →
  status_code resp = 200 →
  json_value resp = Some (VDict kvs) →
  assoc "org_id" kvs = Some (VStr o) → o ≠ "" →
  assoc "project_id" kvs = Some (VStr p) → p ≠ "" →
  ∃ self,
    (__init__ srv getenv uid key_arg host_arg org_name proj_name None None w).1
      = Ok (self, Some (VStr o, VStr p)) ∧
    same_identifiers self ids ∧
    ∀ kwargs w', valid_arg w' kwargs →
      ∃ w'', _prepare_params (with_ids self o p) kwargs w'
               = (Raise (ValueError both_pairs_message), w'').
Proof.
  intros Hk Tn Tp ids Hsrv H200 Hj Ho Hone Hp Hpne.
  assert (Hc : config_error ids = None) by by apply config_error_names.
  destruct (init_run_cases srv getenv uid key_arg host_arg org_name proj_name None None w Hk Hc)
    as (_ & _ & _ & Hok).
  destruct (Hok resp kvs Hsrv H200 Hj) as (self & Hres & _ & Hsame & _).
  assert (Hto : ∀ s, s ≠ "" → negb (String.eqb s "") = true).
  { intros s Hs. apply negb_true_iff, String.eqb_neq. done. }
  exists self. split_and!; [| done |].
  - rewrite Hres. unfold ids_of. rewrite Ho, Hp. simpl. by rewrite !Hto.
  - intros kwargs w' Hv.
    destruct Hsame as (Hn1 & Hn2 & _).
    assert (He : config_error (with_ids self o p) = Some both_pairs_message).
    { unfold config_error, with_ids. simpl. rewrite Hn1, Hn2. simpl.
      by rewrite Tn, (Hto o Hone). }
    destruct (prepare_params_error _ kwargs w' _ He Hv) as (w'' & Hrun & _).
    by exists w''.
Qed.

Lemma legacy_client_unusable_witness :
  ∃ self,
    (__init__ legacy_ping None "me" (Some "k") None (Some "acme") (Some "memo") None None
       empty_world).1 = Ok (self, Some (VStr "o1", VStr "p1")) ∧
    same_identifiers self (session (Some "acme") (Some "memo") None None) ∧
    ∀ kwargs w', valid_arg w' kwargs →
      ∃ w'', _prepare_params (with_ids self "o1" "p1") kwargs w'
               = (Raise (ValueError both_pairs_message), w'').
Proof.
  apply (legacy_client_unusable legacy_ping None "me" (Some "k") None (Some "acme")
           (Some "memo") {| status_code := 200; text := "";
                            json_value := Some (VDict [("org_id", VStr "o1");
                                                       ("project_id", VStr "p1")]) |}
           [("org_id", VStr "o1"); ("project_id", VStr "p1")] "o1" "p1" empty_world);
    try reflexivity; try discriminate.
  by left.
Defined.
